(** * Token-owned-escrow CLI helpers (Bundt Cake): a shallow embedding

    The development follows [token-metadata/cli/escrow/src/helpers/toe.ts]
    ([createTOE], [transferIn]), the generated instruction builder
    [createAddCollectionConstraintToEscrowConstraintModelInstruction] and the
    [create] command of the CLI entry point.

    The helpers are straight-line asynchronous code: every [await] is a
    sequencing point, a rejected promise is an exception that unwinds the
    helper.  They are modelled in a state-and-exception monad whose state holds
    the remote cluster, the list of RPC calls issued so far and the console
    output. *)

From Stdlib Require Import List String Ascii Bool NArith Lia.
From Stdlib Require Import Strings.Byte.
Import ListNotations.
Local Open Scope string_scope.
Local Open Scope list_scope.
Local Open Scope N_scope.

(** ** JavaScript values that may fail *)

(** An [Error] object as thrown by the SDK layers. *)
Record JsError := mkError { err_name : string; err_message : string }.

(** The outcome of evaluating an expression: a value, or a thrown exception. *)
Inductive Result (A : Type) : Type :=
| Ok (a : A)
| Throw (e : JsError).
Arguments Ok {A} a.
Arguments Throw {A} e.

Definition Result_bind {A B} (r : Result A) (k : A -> Result B) : Result B :=
  match r with
  | Ok a => k a
  | Throw e => Throw e
  end.

(** ** Base58 and [web3.PublicKey]

    [new PublicKey(s)] decodes the base58 text [s], insists on 32 bytes and
    keeps the big-endian number; [toString] is the base58 text of the 32
    bytes.  Both are needed for the keys the source writes as literals. *)
Module Base58.

Definition alphabet : string :=
  "123456789ABCDEFGHJKLMNPQRSTUVWXYZabcdefghijkmnopqrstuvwxyz".

Fixpoint index_of (c : ascii) (s : string) (i : N) : option N :=
  match s with
  | EmptyString => None
  | String d rest => if Ascii.eqb c d then Some i else index_of c rest (i + 1)
  end.

Definition digit (c : ascii) : option N := index_of c alphabet 0.

(** Value of a digit string, most significant digit first; [None] on a
    character outside the alphabet. *)
Fixpoint value (s : string) (acc : N) : option N :=
  match s with
  | EmptyString => Some acc
  | String c rest =>
      match digit c with
      | Some d => value rest (acc * 58 + d)
      | None => None
      end
  end.

(** Number of leading ['1'] characters, each standing for one zero byte. *)
Fixpoint leading_ones (s : string) : nat :=
  match s with
  | String "1"%char rest => S (leading_ones rest)
  | _ => O
  end.

Definition byte_of_N (n : N) : byte :=
  match Byte.of_N (n mod 256) with
  | Some b => b
  | None => x00
  end.

Fixpoint be_bytes_aux (fuel : nat) (n : N) (acc : list byte) : list byte :=
  match fuel with
  | O => acc
  | S fuel' =>
      if n =? 0 then acc
      else be_bytes_aux fuel' (n / 256) (byte_of_N n :: acc)
  end.

(** Minimal big-endian byte string of a number ([0] is the empty string). *)
Definition be_bytes (n : N) : list byte :=
  be_bytes_aux (S (N.to_nat (N.log2 n))) n [].

Definition of_be_bytes (bs : list byte) : N :=
  fold_left (fun acc b => acc * 256 + Byte.to_N b) bs 0.

Definition decode (s : string) : option (list byte) :=
  match value s 0 with
  | Some v => Some (repeat x00 (leading_ones s) ++ be_bytes v)
  | None => None
  end.

Definition digit_char (d : N) : ascii :=
  match String.get (N.to_nat d) alphabet with
  | Some c => c
  | None => "1"%char
  end.

Fixpoint digits_aux (fuel : nat) (n : N) (acc : string) : string :=
  match fuel with
  | O => acc
  | S fuel' =>
      if n =? 0 then acc
      else digits_aux fuel' (n / 58) (String (digit_char (n mod 58)) acc)
  end.

Fixpoint leading_zero_bytes (bs : list byte) : nat :=
  match bs with
  | b :: rest => if Byte.to_N b =? 0 then S (leading_zero_bytes rest) else O
  | [] => O
  end.

Fixpoint ones (n : nat) : string :=
  match n with
  | O => EmptyString
  | S n' => String "1"%char (ones n')
  end.

Definition encode (bs : list byte) : string :=
  let v := of_be_bytes bs in
  (ones (leading_zero_bytes bs)
   ++ digits_aux (S (N.to_nat (N.log2 v))) v EmptyString)%string.

End Base58.

Definition PUBLIC_KEY_LENGTH : nat := 32.

(** A public key is the number [_bn] held by the JavaScript object. *)
Record PublicKey := mkPublicKey { bn : N }.

Definition PublicKey_eqb (a b : PublicKey) : bool := bn a =? bn b.

(** [new PublicKey(value)] for a string [value]. *)
Definition PublicKey_new (value : string) : Result PublicKey :=
  match Base58.decode value with
  | None => Throw (mkError "Error" "Non-base58 character")
  | Some decoded =>
      if Nat.eqb (List.length decoded) PUBLIC_KEY_LENGTH
      then Ok (mkPublicKey (Base58.of_be_bytes decoded))
      else Throw (mkError "Error" "Invalid public key input")
  end.

(** [toBuffer]: the number on exactly 32 bytes, zero-padded on the left. *)
Definition PublicKey_toBuffer (k : PublicKey) : list byte :=
  let b := Base58.be_bytes (bn k) in
  repeat x00 (PUBLIC_KEY_LENGTH - List.length b) ++ b.

(** [toString] (and [toBase58]). *)
Definition PublicKey_toString (k : PublicKey) : string :=
  Base58.encode (PublicKey_toBuffer k).

(** The number the key literal of [transferIn],
    ['CjWwgEJUBdb2iYjZsDng5qkYRC8f3rQeqr4k1j9jExr5'], stands for. *)
Definition constraintModelKey : PublicKey :=
  mkPublicKey 78852275743161299557365764987484903964136445953437466895218603561368706889474.

(** [web3.SystemProgram.programId], the key written ['1' x 32]. *)
Definition SystemProgram_programId : PublicKey := mkPublicKey 0.

(** ** Accounts, instructions and transactions ([@solana/web3.js]) *)

Record AccountMeta := mkAccountMeta {
  pubkey : PublicKey;
  isWritable : bool;
  isSigner : bool
}.

Record TransactionInstruction := mkTransactionInstruction {
  programId : PublicKey;
  keys : list AccountMeta;
  data : list byte
}.

Record Keypair := mkKeypair {
  publicKey : PublicKey;
  secretKey : list byte
}.

Record Transaction := mkTransaction {
  instructions : list TransactionInstruction;
  recentBlockhash : option string;
  feePayer : option PublicKey
}.

(** [new Transaction()] *)
Definition Transaction_new : Transaction :=
  {| instructions := []; recentBlockhash := None; feePayer := None |}.

(** [tx.add(ix)] appends one instruction. *)
Definition Transaction_add (tx : Transaction) (ix : TransactionInstruction) : Transaction :=
  {| instructions := instructions tx ++ [ix];
     recentBlockhash := recentBlockhash tx;
     feePayer := feePayer tx |}.

(** [tx.recentBlockhash = blockhash] *)
Definition set_recentBlockhash (tx : Transaction) (blockhash : string) : Transaction :=
  {| instructions := instructions tx;
     recentBlockhash := Some blockhash;
     feePayer := feePayer tx |}.

(** [tx.feePayer = key] *)
Definition set_feePayer (tx : Transaction) (key : PublicKey) : Transaction :=
  {| instructions := instructions tx;
     recentBlockhash := recentBlockhash tx;
     feePayer := Some key |}.

Record BlockhashWithExpiryBlockHeight := mkBlockhash {
  blockhash : string;
  lastValidBlockHeight : N
}.

(** The options object of [sendTransaction]; an absent property is [None]. *)
Record SendOptions := mkSendOptions {
  skipPreflight : option bool;
  preflightCommitment : option string;
  maxRetries : option N
}.

(** ** NFT handles ([@metaplex-foundation/js]): the fields the helpers read *)

Record Mint := mkMint { mint_address : PublicKey }.
Record NftEdition := mkNftEdition { edition_address : PublicKey }.
Record Token := mkToken { token_address : PublicKey }.

Record NftWithToken := mkNftWithToken {
  nft_mint : Mint;
  nft_metadataAddress : PublicKey;
  nft_edition : NftEdition;
  nft_token : Token
}.

Record SftWithToken := mkSftWithToken {
  sft_mint : Mint;
  sft_metadataAddress : PublicKey;
  sft_token : Token
}.

(** [NftWithToken | SftWithToken] *)
Inductive NftOrSft :=
| IsNft (nft : NftWithToken)
| IsSft (sft : SftWithToken).

Definition mint_of (t : NftOrSft) : Mint :=
  match t with IsNft n => nft_mint n | IsSft s => sft_mint s end.
Definition token_of (t : NftOrSft) : Token :=
  match t with IsNft n => nft_token n | IsSft s => sft_token s end.
Definition metadataAddress_of (t : NftOrSft) : PublicKey :=
  match t with IsNft n => nft_metadataAddress n | IsSft s => sft_metadataAddress s end.

(** ** Argument records of the generated builders the helpers call *)

(** The object literal handed to [createCreateEscrowAccountInstruction]. *)
Record CreateEscrowAccountInstructionAccounts := mkCreateEscrowAccounts {
  cea_escrow : PublicKey;
  cea_metadata : PublicKey;
  cea_mint : PublicKey;
  cea_edition : PublicKey;
  cea_payer : PublicKey;
  cea_systemProgram : option PublicKey;
  cea_escrowConstraintModel : option PublicKey
}.

(** The object literal handed to [createTransferIntoEscrowInstruction]. *)
Record TransferIntoEscrowInstructionAccounts := mkTransferAccounts {
  escrow : PublicKey;
  payer : PublicKey;
  attributeMint : PublicKey;
  attributeSrc : PublicKey;
  attributeDst : PublicKey;
  attributeMetadata : PublicKey;
  escrowMint : PublicKey;
  escrowAccount : PublicKey;
  constraintModel : PublicKey
}.

Record TransferIntoEscrowArgs := mkTransferArgs { amount : N; index : N }.

Record TransferIntoEscrowInstructionArgs := mkTransferInstructionArgs {
  transferIntoEscrowArgs : TransferIntoEscrowArgs
}.

(** ** [getAssociatedTokenAddress] ([@solana/spl-token])

    The library refuses an owner that is off the curve unless the caller
    passes [allowOwnerOffCurve]; otherwise it answers the derived address.
    The curve test and the derivation are those of the library. *)
Section AssociatedToken.

Variable isOnCurve : PublicKey -> bool.
Variable associatedTokenPda : PublicKey -> PublicKey -> PublicKey.

Definition getAssociatedTokenAddress
           (mint owner : PublicKey) (allowOwnerOffCurve : bool) : Result PublicKey :=
  if negb allowOwnerOffCurve && negb (isOnCurve owner)
  then Throw (mkError "TokenOwnerOffCurveError" "")
  else Ok (associatedTokenPda mint owner).

End AssociatedToken.

(** ** The process: cluster, RPC calls issued, console *)

Inductive RpcCall :=
| CallGetLatestBlockhash
| CallSendTransaction (tx : Transaction) (signers : list Keypair)
                      (options : option SendOptions).

Inductive ConsoleArg :=
| LogString (s : string)
| LogTransaction (tx : Transaction).

(** The transactions handed to [sendTransaction] among some RPC calls. *)
Definition sent_transactions (calls : list RpcCall) : list Transaction :=
  flat_map (fun c => match c with
                     | CallSendTransaction tx _ _ => [tx]
                     | CallGetLatestBlockhash => []
                     end) calls.

Section Process.

(** The remote cluster as seen through the RPC endpoint. *)
Variable Net : Type.

(** A [Connection]: what its two methods answer, and how the cluster moves. *)
Record Connection := mkConnection {
  rpcGetLatestBlockhash : Net -> Result BlockhashWithExpiryBlockHeight * Net;
  rpcSendTransaction :
    Transaction -> list Keypair -> option SendOptions -> Net -> Result string * Net
}.

Record Proc := mkProc {
  net : Net;
  rpcLog : list RpcCall;
  console : list ConsoleArg
}.

(** An asynchronous computation: runs from a process state to an outcome
    and the state reached, also when it throws. *)
Definition Async (A : Type) : Type := Proc -> Result A * Proc.

Definition ret {A} (a : A) : Async A := fun p => (Ok a, p).

Definition bind {A B} (c : Async A) (k : A -> Async B) : Async B :=
  fun p =>
    match c p with
    | (Ok a, p') => k a p'
    | (Throw e, p') => (Throw e, p')
    end.

(** A synchronous expression evaluated inside an [async] function. *)
Definition liftResult {A} (r : Result A) : Async A := fun p => (r, p).

Definition console_log (a : ConsoleArg) : Async unit :=
  fun p => (Ok tt, {| net := net p; rpcLog := rpcLog p; console := console p ++ [a] |}).

(** [connection.getLatestBlockhash()] *)
Definition getLatestBlockhash (connection : Connection)
  : Async BlockhashWithExpiryBlockHeight :=
  fun p =>
    let (r, n) := rpcGetLatestBlockhash connection (net p) in
    (r, {| net := n;
           rpcLog := rpcLog p ++ [CallGetLatestBlockhash];
           console := console p |}).

(** [connection.sendTransaction(tx, signers, options)] *)
Definition sendTransaction (connection : Connection) (tx : Transaction)
           (signers : list Keypair) (options : option SendOptions) : Async string :=
  fun p =>
    let (r, n) := rpcSendTransaction connection tx signers options (net p) in
    (r, {| net := n;
           rpcLog := rpcLog p ++ [CallSendTransaction tx signers options];
           console := console p |}).

(** The RPC calls issued between two process states. *)
Definition calls_made (before after : Proc) : list RpcCall :=
  skipn (List.length (rpcLog before)) (rpcLog after).

End Process.

Arguments mkConnection {Net}.
Arguments rpcGetLatestBlockhash {Net}.
Arguments rpcSendTransaction {Net}.
Arguments mkProc {Net}.
Arguments net {Net}.
Arguments rpcLog {Net}.
Arguments console {Net}.
Arguments ret {Net A}.
Arguments bind {Net A B}.
Arguments liftResult {Net A}.
Arguments console_log {Net}.
Arguments getLatestBlockhash {Net}.
Arguments sendTransaction {Net}.
Arguments calls_made {Net}.

Declare Scope async_scope.
Delimit Scope async_scope with async.
Notation "x <- c ;; k" := (bind c (fun x => k))
  (at level 61, c at next level, right associativity) : async_scope.
Notation "c ;;; k" := (bind c (fun _ => k))
  (at level 61, right associativity) : async_scope.

(** ** [helpers/toe.ts] *)
Section Toe.

Variable Net : Type.

(** Modelled from the spec: [findToePda] of [helpers/pdas] is not in the
    snapshot.  The spec has the escrow address "deterministically derived
    (program-derived address) computed from the NFT mint's public key"; the
    helper indexes the answer with [[0]], so the answer is the pair of the
    address and its bump seed. *)
Variable findToePda : PublicKey -> PublicKey * N.

(** The two generated builders [toe.ts] imports; their files are not in the
    snapshot, the helpers only pass them the objects built below. *)
Variable createCreateEscrowAccountInstruction :
  CreateEscrowAccountInstructionAccounts -> TransactionInstruction.
Variable createTransferIntoEscrowInstruction :
  TransferIntoEscrowInstructionAccounts -> TransferIntoEscrowInstructionArgs ->
  TransactionInstruction.

Variable isOnCurve : PublicKey -> bool.
Variable associatedTokenPda : PublicKey -> PublicKey -> PublicKey.

Local Open Scope async_scope.

(** [createTOE]: derive the escrow address, build the creation instruction,
    fetch a blockhash, submit, and answer what [findToePda] gave. *)
Definition createTOE (connection : Connection Net) (nft : NftWithToken)
           (keypair : Keypair) : Async Net (PublicKey * N) :=
  let escrowAccountAddress := findToePda (mint_address (nft_mint nft)) in
  let createIX :=
    createCreateEscrowAccountInstruction
      {| cea_escrow := fst escrowAccountAddress;
         cea_metadata := nft_metadataAddress nft;
         cea_mint := mint_address (nft_mint nft);
         cea_edition := edition_address (nft_edition nft);
         cea_payer := publicKey keypair;
         cea_systemProgram := None;
         cea_escrowConstraintModel := None |} in
  let tx := Transaction_add Transaction_new createIX in
  latest <- getLatestBlockhash connection ;;
  let tx := set_recentBlockhash tx (blockhash latest) in
  let tx := set_feePayer tx (publicKey keypair) in
  sendTransaction connection tx [keypair] None ;;;
  ret escrowAccountAddress.

(** [transferIn]: look up the destination token account, print it, build the
    transfer instruction, fetch a blockhash, print the transaction and submit
    it without preflight. *)
Definition transferIn (connection : Connection Net) (escrowNft : NftWithToken)
           (escrowAccountAddress : PublicKey) (nft : NftOrSft)
           (keypair : Keypair) : Async Net unit :=
  dst <- liftResult
           (getAssociatedTokenAddress isOnCurve associatedTokenPda
              (mint_address (mint_of nft)) escrowAccountAddress true) ;;
  console_log (LogString "dst:") ;;;
  console_log (LogString (PublicKey_toString dst)) ;;;
  model <- liftResult (PublicKey_new "CjWwgEJUBdb2iYjZsDng5qkYRC8f3rQeqr4k1j9jExr5") ;;
  let transferIX :=
    createTransferIntoEscrowInstruction
      {| escrow := escrowAccountAddress;
         payer := publicKey keypair;
         attributeMint := mint_address (mint_of nft);
         attributeSrc := token_address (token_of nft);
         attributeDst := dst;
         attributeMetadata := metadataAddress_of nft;
         escrowMint := mint_address (nft_mint escrowNft);
         escrowAccount := token_address (nft_token escrowNft);
         constraintModel := model |}
      {| transferIntoEscrowArgs := {| amount := 1; index := 1 |} |} in
  let tx := Transaction_add Transaction_new transferIX in
  latest <- getLatestBlockhash connection ;;
  let tx := set_recentBlockhash tx (blockhash latest) in
  let tx := set_feePayer tx (publicKey keypair) in
  console_log (LogTransaction tx) ;;;
  sendTransaction connection tx [keypair]
    (Some {| skipPreflight := Some true;
             preflightCommitment := None;
             maxRetries := None |}) ;;;
  ret tt.

End Toe.

Arguments createTOE {Net}.
Arguments transferIn {Net}.

(** ** [beet] field writers used by the generated argument structs *)

(** [beet.u8.write]: one byte; Node's [writeUInt8] rejects a value above 255. *)
Definition beet_u8_write (value : N) : Result (list byte) :=
  match Byte.of_N value with
  | Some b => Ok [b]
  | None => Throw (mkError "RangeError" "The value is out of range")
  end.

(** ** The generated builder
       [instructions/AddCollectionConstraintToEscrowConstraintModel] *)
Module AddCollectionConstraintToEscrowConstraintModel.

Record InstructionAccounts := mkInstructionAccounts {
  constraintModel : PublicKey;
  payer : PublicKey;
  updateAuthority : PublicKey;
  collectionMint : PublicKey;
  collectionMintMetadata : PublicKey;
  systemProgram : option PublicKey;
  sysvarInstructions : PublicKey
}.

Definition addCollectionConstraintToEscrowConstraintModelInstructionDiscriminator : N := 5.

Section Builder.

(** The argument type and its [beet] come from
    [types/AddCollectionConstraintToEscrowConstraintModelArgs], which is
    not in the snapshot.  [serialize] uses the [beet] twice and either use
    can throw: it is first fixed to the value ([toFixedFromValue]), and the
    fixed [beet] then writes the value. *)
Variable AddCollectionConstraintToEscrowConstraintModelArgs : Type.
Variable FixedArgsBeet : Type.
Variable addCollectionConstraintToEscrowConstraintModelArgsBeet_toFixedFromValue :
  AddCollectionConstraintToEscrowConstraintModelArgs -> Result FixedArgsBeet.
Variable FixedArgsBeet_write :
  FixedArgsBeet -> AddCollectionConstraintToEscrowConstraintModelArgs ->
  Result (list byte).

(** An [args] object: the property its type declares, and an own
    [instructionDiscriminator] property when the object happens to carry one
    (the declared type neither asks for it nor keeps it out; the struct's
    type makes it a number). *)
Record InstructionArgs := mkInstructionArgs {
  addCollectionConstraintToEscrowConstraintModelArgs :
    AddCollectionConstraintToEscrowConstraintModelArgs;
  own_instructionDiscriminator : option N
}.

(** The object [{ instructionDiscriminator, ...args }] given to
    [serialize]. *)
Record StructValue := mkStructValue {
  sv_instructionDiscriminator : N;
  sv_addCollectionConstraintToEscrowConstraintModelArgs :
    AddCollectionConstraintToEscrowConstraintModelArgs
}.

(** [AddCollectionConstraintToEscrowConstraintModelStruct.serialize]: the
    struct is fixed to the value, then the fields are written in the order
    the struct lists them. *)
Definition AddCollectionConstraintToEscrowConstraintModelStruct_serialize
           (v : StructValue) : Result (list byte) :=
  Result_bind
    (addCollectionConstraintToEscrowConstraintModelArgsBeet_toFixedFromValue
       (sv_addCollectionConstraintToEscrowConstraintModelArgs v)) (fun fixed =>
  Result_bind (beet_u8_write (sv_instructionDiscriminator v)) (fun d =>
  Result_bind
    (FixedArgsBeet_write fixed
       (sv_addCollectionConstraintToEscrowConstraintModelArgs v)) (fun a =>
  Ok (d ++ a)))).

(** The third parameter is optional; left out, the default key literal is
    evaluated at the call.  In [{ instructionDiscriminator: 5, ...args }] the
    spread comes second, so an own [instructionDiscriminator] of [args]
    replaces the 5. *)
Definition createAddCollectionConstraintToEscrowConstraintModelInstruction
           (accounts : InstructionAccounts) (args : InstructionArgs)
           (programId : option PublicKey) : Result TransactionInstruction :=
  Result_bind
    (match programId with
     | Some id => Ok id
     | None => PublicKey_new "trifMWutwBxkSuatmpPVnEe7NoE3BJKgjVi8sSyoXWX"
     end) (fun programId =>
  Result_bind
    (AddCollectionConstraintToEscrowConstraintModelStruct_serialize
       {| sv_instructionDiscriminator :=
            match own_instructionDiscriminator args with
            | Some own => own
            | None =>
                addCollectionConstraintToEscrowConstraintModelInstructionDiscriminator
            end;
          sv_addCollectionConstraintToEscrowConstraintModelArgs :=
            addCollectionConstraintToEscrowConstraintModelArgs args |}) (fun data =>
  let keys : list AccountMeta :=
    [ {| pubkey := constraintModel accounts; isWritable := true; isSigner := false |};
      {| pubkey := payer accounts; isWritable := true; isSigner := true |};
      {| pubkey := updateAuthority accounts; isWritable := false; isSigner := true |};
      {| pubkey := collectionMint accounts; isWritable := false; isSigner := false |};
      {| pubkey := collectionMintMetadata accounts;
         isWritable := false; isSigner := false |};
      {| pubkey := match systemProgram accounts with
                   | Some k => k
                   | None => SystemProgram_programId
                   end;
         isWritable := false; isSigner := false |};
      {| pubkey := sysvarInstructions accounts;
         isWritable := false; isSigner := false |} ] in
  Ok {| programId := programId; keys := keys; data := data |})).

End Builder.

End AddCollectionConstraintToEscrowConstraintModel.

(** ** The generated builder [instructions/CreateEscrowAccount] *)
Module CreateEscrowAccount.

(** The roles an account can take in the creation instruction. *)
Inductive Role :=
| RoleEscrow | RoleMetadata | RoleMint | RoleEdition | RolePayer
| RoleSystemProgram | RoleEscrowConstraintModel.

Section Builder.

(** What the builder's file fixes and the snapshot does not show: the
    program it addresses, its discriminator byte, and the writable and
    signer flags its documentation gives each role. *)
Variable defaultProgramId : PublicKey.
Variable createEscrowAccountInstructionDiscriminator : byte.
Variable documentedWritable : Role -> bool.
Variable documentedSigner : Role -> bool.

Definition meta (role : Role) (key : PublicKey) : AccountMeta :=
  {| pubkey := key;
     isWritable := documentedWritable role;
     isSigner := documentedSigner role |}.

(** Modelled from the spec: [createCreateEscrowAccountInstruction] is not
    in the snapshot.  The spec has its account list hold "exactly the
    escrow, metadata, mint, edition, payer, and (implicitly)
    system-program accounts in the documented roles"; as in the sibling
    builder above the system program defaults when left out, the keys
    come in a fixed order, and the optional constraint-model account is
    listed only when the caller gives one.  The flags being unknown, it only
    serves to run [createTOE] on a concrete builder. *)
Definition createCreateEscrowAccountInstruction
           (accounts : CreateEscrowAccountInstructionAccounts)
  : TransactionInstruction :=
  let keys : list AccountMeta :=
    [ meta RoleEscrow (cea_escrow accounts);
      meta RoleMetadata (cea_metadata accounts);
      meta RoleMint (cea_mint accounts);
      meta RoleEdition (cea_edition accounts);
      meta RolePayer (cea_payer accounts);
      meta RoleSystemProgram
           (match cea_systemProgram accounts with
            | Some k => k
            | None => SystemProgram_programId
            end) ]
    ++ match cea_escrowConstraintModel accounts with
       | Some k => [meta RoleEscrowConstraintModel k]
       | None => []
       end in
  {| programId := defaultProgramId;
     keys := keys;
     data := [createEscrowAccountInstructionDiscriminator] |}.

End Builder.

End CreateEscrowAccount.

(** ** The CLI entry point: the [create] command *)
Module Cli.

(** What [cmd.opts()] answers for the options [programCommand] and the
    [create] command declare. *)
Record Options := mkOptions {
  env : string;
  rpc : option string;
  keypair : string;
  logLevel : option string;
  amount : option string
}.

Record Command := mkCommand { opts : Options }.

Section Create.

Variable Net : Type.
Variable Metaplex : Type.

(** Modelled from the spec: [use_metaplex] of [helpers/utils] is not in
    the snapshot.  The spec has it construct the client handle ("a
    connection/identity object is constructed from the keypair and RPC
    endpoint"), failing with the SDK's exception on a malformed keypair
    file; constructing the handle issues no RPC call. *)
Variable use_metaplex : string -> string -> option string -> Result Metaplex.

Local Open Scope async_scope.

(** The callback given to [.action]: commander passes the options object
    first (the source names it [directory] and ignores it) and the
    command second. *)
Definition create_action (directory : Options) (cmd : Command) : Async Net unit :=
  let o := opts cmd in
  metaplex <- liftResult (use_metaplex (keypair o) (env o) (rpc o)) ;;
  ret tt.

End Create.

Arguments create_action {Net Metaplex}.

End Cli.

(** ** A small cluster to run the helpers on *)
Module Demo.

(** The cluster state: how many transactions it has taken in. *)
Definition Net : Type := nat.

Definition latest : BlockhashWithExpiryBlockHeight :=
  {| blockhash := "EkSnNWid2cvwEVnVx9aBqawnmiCNiDgp3gUdkDPTKN1N";
     lastValidBlockHeight := 3090 |}.

(** An endpoint that answers both calls. *)
Definition connection : Connection Net :=
  {| rpcGetLatestBlockhash := fun n => (Ok latest, n);
     rpcSendTransaction := fun _ _ _ n => (Ok "5VERv8NMvzbJMEkV8xnrLkEaWRtSz9CosKDYjCJjBRnb", S n) |}.

(** An endpoint that hands out blockhashes and rejects every submission. *)
Definition rejecting : Connection Net :=
  {| rpcGetLatestBlockhash := fun n => (Ok latest, n);
     rpcSendTransaction := fun _ _ _ n =>
       (Throw (mkError "SendTransactionError" "failed to send transaction"), n) |}.

(** An endpoint that cannot be reached. *)
Definition unreachable : Connection Net :=
  {| rpcGetLatestBlockhash := fun n => (Throw (mkError "FetchError" "ECONNREFUSED"), n);
     rpcSendTransaction := fun _ _ _ n => (Throw (mkError "FetchError" "ECONNREFUSED"), n) |}.

Definition start : Proc Net := {| net := O; rpcLog := []; console := [] |}.

Definition findToePda (mint : PublicKey) : PublicKey * N :=
  (mkPublicKey (bn mint * 3 + 1), 254).

Definition isOnCurve (k : PublicKey) : bool := N.even (bn k).

Definition associatedTokenPda (mint owner : PublicKey) : PublicKey :=
  mkPublicKey (bn mint * 5 + bn owner).

Definition tokenMetadataProgram : PublicKey := mkPublicKey 77.

Definition writable (r : CreateEscrowAccount.Role) : bool :=
  match r with
  | CreateEscrowAccount.RoleEscrow | CreateEscrowAccount.RolePayer => true
  | _ => false
  end.

Definition signer (r : CreateEscrowAccount.Role) : bool :=
  match r with
  | CreateEscrowAccount.RolePayer => true
  | _ => false
  end.

Definition createCreateEscrowAccountInstruction :=
  CreateEscrowAccount.createCreateEscrowAccountInstruction
    tokenMetadataProgram x26 writable signer.

Definition createTransferIntoEscrowInstruction
           (accounts : TransferIntoEscrowInstructionAccounts)
           (args : TransferIntoEscrowInstructionArgs) : TransactionInstruction :=
  {| programId := tokenMetadataProgram;
     keys := map (fun k => {| pubkey := k; isWritable := false; isSigner := false |})
                 [escrow accounts; payer accounts; attributeMint accounts;
                  attributeSrc accounts; attributeDst accounts;
                  attributeMetadata accounts; escrowMint accounts;
                  escrowAccount accounts; constraintModel accounts];
     data := [x28;
              Base58.byte_of_N (amount (transferIntoEscrowArgs args));
              Base58.byte_of_N (index (transferIntoEscrowArgs args))] |}.

Definition wallet : Keypair := {| publicKey := mkPublicKey 9001; secretKey := [x01; x02] |}.
Definition otherWallet : Keypair := {| publicKey := mkPublicKey 9002; secretKey := [x03] |}.

Definition escrowNft : NftWithToken :=
  {| nft_mint := {| mint_address := mkPublicKey 100 |};
     nft_metadataAddress := mkPublicKey 101;
     nft_edition := {| edition_address := mkPublicKey 102 |};
     nft_token := {| token_address := mkPublicKey 103 |} |}.

(** Another handle on the same mint, its other addresses differing. *)
Definition escrowNftAgain : NftWithToken :=
  {| nft_mint := {| mint_address := mkPublicKey 100 |};
     nft_metadataAddress := mkPublicKey 111;
     nft_edition := {| edition_address := mkPublicKey 112 |};
     nft_token := {| token_address := mkPublicKey 113 |} |}.

Definition attribute : NftOrSft :=
  IsSft {| sft_mint := {| mint_address := mkPublicKey 200 |};
           sft_metadataAddress := mkPublicKey 201;
           sft_token := {| token_address := mkPublicKey 203 |} |}.

Definition escrowAddress : PublicKey := fst (findToePda (mkPublicKey 100)).

Definition runCreate (c : Connection Net) :=
  createTOE findToePda createCreateEscrowAccountInstruction c escrowNft wallet start.

Definition runTransfer (c : Connection Net) :=
  transferIn createTransferIntoEscrowInstruction isOnCurve associatedTokenPda
             c escrowNft escrowAddress attribute wallet start.

Definition use_metaplex (keypair env : string) (rpc : option string) : Result string :=
  if String.eqb keypair "--keypair not provided"
  then Throw (mkError "Error" "ENOENT: no such file or directory")
  else Ok (match rpc with Some url => url | None => env end).

Definition options : Cli.Options :=
  {| Cli.env := "devnet";
     Cli.rpc := None;
     Cli.keypair := "/home/user/.config/solana/id.json";
     Cli.logLevel := None;
     Cli.amount := Some "5" |}.

End Demo.

(** The number the default program id of the generated builder,
    ['trifMWutwBxkSuatmpPVnEe7NoE3BJKgjVi8sSyoXWX'], stands for. *)
Definition defaultProgramIdKey : PublicKey :=
  mkPublicKey 6008760499114304792758486077581156643616431822353196983669577919752620023608.

(** ** The CLI entry point: the log-level option *)

(** The values the option parser can hand to a callback: the option's text,
    or no value. *)
Inductive JsValue :=
| JsUndefined
| JsNull
| JsString (s : string).

(** The [loglevel] logger the CLI imports as [log]: a current level, and the
    lines that reached the console. *)
Module Loglevel.

Definition TRACE : N := 0.
Definition DEBUG : N := 1.
Definition INFO : N := 2.
Definition WARN : N := 3.
Definition ERROR : N := 4.
Definition SILENT : N := 5.

(** [log.levels], looked up by name. *)
Definition levels (name : string) : option N :=
  if String.eqb name "TRACE" then Some TRACE
  else if String.eqb name "DEBUG" then Some DEBUG
  else if String.eqb name "INFO" then Some INFO
  else if String.eqb name "WARN" then Some WARN
  else if String.eqb name "ERROR" then Some ERROR
  else if String.eqb name "SILENT" then Some SILENT
  else None.

Record Logger := mkLogger {
  currentLevel : N;
  printed : list string
}.

(** A fresh logger stands at [WARN]. *)
Definition initial : Logger := {| currentLevel := WARN; printed := [] |}.

(** [log.info(msg)]: printed when the current level admits [INFO], dropped
    otherwise. *)
Definition info (msg : string) (lg : Logger) : Logger :=
  if currentLevel lg <=? INFO
  then {| currentLevel := currentLevel lg; printed := printed lg ++ [msg] |}
  else lg.

Section SetLevel.

(** [String.prototype.toUpperCase] *)
Variable toUpperCase : string -> string.

(** [log.setLevel(level)] for a string: the level of that name, upper-cased,
    becomes current; a string that names no level is refused with an
    exception and the level stays. *)
Definition setLevel (level : string) (lg : Logger) : Result unit * Logger :=
  match levels (toUpperCase level) with
  | Some l => (Ok tt, {| currentLevel := l; printed := printed lg |})
  | None =>
      (Throw (mkError "TypeError"
                      ("log.setLevel() called with invalid level: " ++ level)%string),
       lg)
  end.

End SetLevel.

End Loglevel.

Section SetLogLevel.

Variable toUpperCase : string -> string.

(** [setLogLevel(value, prev)], the parser given to [--log-level]. *)
Definition setLogLevel (value prev : JsValue) (lg : Loglevel.Logger)
  : Result unit * Loglevel.Logger :=
  match value with
  | JsUndefined | JsNull => (Ok tt, lg)
  | JsString v =>
      let lg := Loglevel.info ("setting the log value to: " ++ v)%string lg in
      match Loglevel.setLevel toUpperCase v lg with
      | (Ok _, lg') => (Ok tt, lg')
      | (Throw e, lg') => (Throw e, lg')
      end
  end.

End SetLogLevel.

(** ASCII upper-casing, to run the logger on plain level names. *)
Module LogDemo.

Definition upper (c : ascii) : ascii :=
  let n := nat_of_ascii c in
  if (Nat.leb 97 n && Nat.leb n 122)%bool then ascii_of_nat (n - 32) else c.

Fixpoint toUpperCase (s : string) : string :=
  match s with
  | EmptyString => EmptyString
  | String c rest => String (upper c) (toUpperCase rest)
  end.

End LogDemo.

(** Calls of the generated builder that differ in how the system program
    is given, in the arguments and in the program id.  The arguments are
    bytes written as they are; more than four of them are refused. *)
Module BuilderDemo.

Definition toFixedFromValue (bs : list byte) : Result unit :=
  if Nat.leb (List.length bs) 4 then Ok tt
  else Throw (mkError "RangeError" "too many bytes").

Definition write (fixed : unit) (bs : list byte) : Result (list byte) := Ok bs.

Definition build :=
  AddCollectionConstraintToEscrowConstraintModel.createAddCollectionConstraintToEscrowConstraintModelInstruction
    (list byte) unit toFixedFromValue write.

Definition omitted : AddCollectionConstraintToEscrowConstraintModel.InstructionAccounts :=
  AddCollectionConstraintToEscrowConstraintModel.mkInstructionAccounts
    (mkPublicKey 1) (mkPublicKey 2) (mkPublicKey 3) (mkPublicKey 4) (mkPublicKey 5)
    None (mkPublicKey 7).

Definition explicit : AddCollectionConstraintToEscrowConstraintModel.InstructionAccounts :=
  AddCollectionConstraintToEscrowConstraintModel.mkInstructionAccounts
    (mkPublicKey 1) (mkPublicKey 2) (mkPublicKey 3) (mkPublicKey 4) (mkPublicKey 5)
    (Some SystemProgram_programId) (mkPublicKey 7).

Definition instruction_of (r : Result TransactionInstruction) : TransactionInstruction :=
  match r with
  | Ok ix => ix
  | Throw _ => {| programId := SystemProgram_programId; keys := []; data := [] |}
  end.

Definition first : Result TransactionInstruction :=
  build omitted
        (AddCollectionConstraintToEscrowConstraintModel.mkInstructionArgs _ [x2a] None)
        (Some (mkPublicKey 8)).

Definition second : Result TransactionInstruction :=
  build explicit
        (AddCollectionConstraintToEscrowConstraintModel.mkInstructionArgs _ [x07] None)
        (Some (mkPublicKey 9)).

(** An [args] object that carries its own [instructionDiscriminator: 9]. *)
Definition overridden : Result TransactionInstruction :=
  build omitted
        (AddCollectionConstraintToEscrowConstraintModel.mkInstructionArgs
           _ [x2a] (Some 9))
        None.

(** Arguments the codec refuses. *)
Definition refused : Result TransactionInstruction :=
  build omitted
        (AddCollectionConstraintToEscrowConstraintModel.mkInstructionArgs
           _ [x01; x02; x03; x04; x05] None)
        None.

End BuilderDemo.

(** * Properties *)

Arguments PublicKey_new : simpl never.

(** ** The key literals of the source are well-formed *)

Lemma constraintModel_literal :
  PublicKey_new "CjWwgEJUBdb2iYjZsDng5qkYRC8f3rQeqr4k1j9jExr5" = Ok constraintModelKey.
Proof. vm_compute. reflexivity. Qed.

Lemma constraintModel_literal_roundtrip :
  PublicKey_toString constraintModelKey = "CjWwgEJUBdb2iYjZsDng5qkYRC8f3rQeqr4k1j9jExr5".
Proof. vm_compute. reflexivity. Qed.

Lemma programId_literal :
  exists k, PublicKey_new "trifMWutwBxkSuatmpPVnEe7NoE3BJKgjVi8sSyoXWX" = Ok k.
Proof. eexists. vm_compute. reflexivity. Qed.

Lemma SystemProgram_programId_literal :
  PublicKey_new "11111111111111111111111111111111" = Ok SystemProgram_programId.
Proof. vm_compute. reflexivity. Qed.

Example PublicKey_new_rejects_short : exists e, PublicKey_new "toe" = Throw e.
Proof. eexists. vm_compute. reflexivity. Qed.

Example PublicKey_new_rejects_alphabet : exists e, PublicKey_new "0OIl" = Throw e.
Proof. eexists. vm_compute. reflexivity. Qed.

(** ** The call log *)

Lemma skipn_length_app {A} (l l' : list A) : skipn (List.length l) (l ++ l') = l'.
Proof. induction l as [|x l IH]; simpl; auto. Qed.

Lemma calls_made_app {Net} (p : Proc Net) n calls out :
  calls_made p {| net := n; rpcLog := rpcLog p ++ calls; console := out |} = calls.
Proof. unfold calls_made. simpl. apply skipn_length_app. Qed.

Lemma getAssociatedTokenAddress_allowOffCurve isOnCurve pda mint owner :
  getAssociatedTokenAddress isOnCurve pda mint owner true = Ok (pda mint owner).
Proof. reflexivity. Qed.

(** ** Symbolic runs of the two helpers *)
Section Runs.

Context {Net : Type}.
Variable findToePda : PublicKey -> PublicKey * N.
Variable createIx : CreateEscrowAccountInstructionAccounts -> TransactionInstruction.
Variable transferIx :
  TransferIntoEscrowInstructionAccounts -> TransferIntoEscrowInstructionArgs ->
  TransactionInstruction.
Variable isOnCurve : PublicKey -> bool.
Variable pda : PublicKey -> PublicKey -> PublicKey.

(** The accounts object [createTOE] builds. *)
Let createAccounts (nft : NftWithToken) (keypair : Keypair) :=
  {| cea_escrow := fst (findToePda (mint_address (nft_mint nft)));
     cea_metadata := nft_metadataAddress nft;
     cea_mint := mint_address (nft_mint nft);
     cea_edition := edition_address (nft_edition nft);
     cea_payer := publicKey keypair;
     cea_systemProgram := None;
     cea_escrowConstraintModel := None |}.

Lemma createTOE_run (c : Connection Net) nft keypair (p : Proc Net) :
  createTOE findToePda createIx c nft keypair p =
  match rpcGetLatestBlockhash c (net p) with
  | (Throw e, n1) =>
      (Throw e, {| net := n1;
                   rpcLog := rpcLog p ++ [CallGetLatestBlockhash];
                   console := console p |})
  | (Ok latest, n1) =>
      let tx := {| instructions := [createIx (createAccounts nft keypair)];
                   recentBlockhash := Some (blockhash latest);
                   feePayer := Some (publicKey keypair) |} in
      let log := rpcLog p ++ [CallGetLatestBlockhash;
                              CallSendTransaction tx [keypair] None] in
      match rpcSendTransaction c tx [keypair] None n1 with
      | (Throw e, n2) => (Throw e, {| net := n2; rpcLog := log; console := console p |})
      | (Ok _, n2) =>
          (Ok (findToePda (mint_address (nft_mint nft))),
           {| net := n2; rpcLog := log; console := console p |})
      end
  end.
Proof.
  unfold createTOE, bind, getLatestBlockhash, sendTransaction, ret.
  destruct (rpcGetLatestBlockhash c (net p)) as [[latest|e] n1]; [|reflexivity].
  subst createAccounts.
  unfold set_feePayer, set_recentBlockhash, Transaction_add, Transaction_new.
  cbn.
  match goal with
  | |- context [rpcSendTransaction c ?tx ?ks ?o n1] =>
      destruct (rpcSendTransaction c tx ks o n1) as [[sig|e] n2]
  end;
    rewrite <- app_assoc; reflexivity.
Qed.

(** The accounts object [transferIn] builds. *)
Let transferAccounts (escrowNft : NftWithToken) (escrowAccountAddress : PublicKey)
    (nft : NftOrSft) (keypair : Keypair) :=
  {| escrow := escrowAccountAddress;
     payer := publicKey keypair;
     attributeMint := mint_address (mint_of nft);
     attributeSrc := token_address (token_of nft);
     attributeDst := pda (mint_address (mint_of nft)) escrowAccountAddress;
     attributeMetadata := metadataAddress_of nft;
     escrowMint := mint_address (nft_mint escrowNft);
     escrowAccount := token_address (nft_token escrowNft);
     constraintModel := constraintModelKey |}.

Lemma transferIn_run (c : Connection Net) escrowNft escrowAccountAddress nft keypair
      (p : Proc Net) :
  transferIn transferIx isOnCurve pda c escrowNft escrowAccountAddress nft keypair p =
  let dst := pda (mint_address (mint_of nft)) escrowAccountAddress in
  let out := console p ++ [LogString "dst:"; LogString (PublicKey_toString dst)] in
  match rpcGetLatestBlockhash c (net p) with
  | (Throw e, n1) =>
      (Throw e, {| net := n1;
                   rpcLog := rpcLog p ++ [CallGetLatestBlockhash];
                   console := out |})
  | (Ok latest, n1) =>
      let tx := {| instructions :=
                     [transferIx
                        (transferAccounts escrowNft escrowAccountAddress nft keypair)
                        {| transferIntoEscrowArgs := {| amount := 1; index := 1 |} |}];
                   recentBlockhash := Some (blockhash latest);
                   feePayer := Some (publicKey keypair) |} in
      let options := Some {| skipPreflight := Some true;
                             preflightCommitment := None;
                             maxRetries := None |} in
      let log := rpcLog p ++ [CallGetLatestBlockhash;
                              CallSendTransaction tx [keypair] options] in
      let out := out ++ [LogTransaction tx] in
      match rpcSendTransaction c tx [keypair] options n1 with
      | (Throw e, n2) => (Throw e, {| net := n2; rpcLog := log; console := out |})
      | (Ok _, n2) => (Ok tt, {| net := n2; rpcLog := log; console := out |})
      end
  end.
Proof.
  unfold transferIn, bind, liftResult.
  rewrite getAssociatedTokenAddress_allowOffCurve, constraintModel_literal.
  unfold console_log, getLatestBlockhash, sendTransaction, ret.
  subst transferAccounts.
  unfold set_feePayer, set_recentBlockhash, Transaction_add, Transaction_new.
  cbn -[PublicKey_toString].
  destruct (rpcGetLatestBlockhash c (net p)) as [[latest|e] n1];
    cbn -[PublicKey_toString]; rewrite <- ?app_assoc; [|reflexivity].
  match goal with
  | |- context [rpcSendTransaction c ?tx ?ks ?o n1] =>
      destruct (rpcSendTransaction c tx ks o n1) as [[sig|e] n2]
  end;
    cbn -[PublicKey_toString]; rewrite <- ?app_assoc; reflexivity.
Qed.

(** The RPC calls one invocation of [createTOE] issues. *)
Lemma createTOE_calls (c : Connection Net) nft keypair (p : Proc Net) :
  calls_made p (snd (createTOE findToePda createIx c nft keypair p)) =
  match rpcGetLatestBlockhash c (net p) with
  | (Throw _, _) => [CallGetLatestBlockhash]
  | (Ok latest, _) =>
      [CallGetLatestBlockhash;
       CallSendTransaction
         {| instructions := [createIx (createAccounts nft keypair)];
            recentBlockhash := Some (blockhash latest);
            feePayer := Some (publicKey keypair) |}
         [keypair] None]
  end.
Proof.
  rewrite createTOE_run.
  destruct (rpcGetLatestBlockhash c (net p)) as [[latest|e] n1]; cbv zeta.
  - match goal with
    | |- context [rpcSendTransaction c ?tx ?ks ?o n1] =>
        destruct (rpcSendTransaction c tx ks o n1) as [[sig|e] n2]
    end; apply calls_made_app.
  - apply calls_made_app.
Qed.

(** The RPC calls one invocation of [transferIn] issues. *)
Lemma transferIn_calls (c : Connection Net) escrowNft escrowAccountAddress nft keypair
      (p : Proc Net) :
  calls_made p (snd (transferIn transferIx isOnCurve pda c escrowNft
                                escrowAccountAddress nft keypair p)) =
  match rpcGetLatestBlockhash c (net p) with
  | (Throw _, _) => [CallGetLatestBlockhash]
  | (Ok latest, _) =>
      [CallGetLatestBlockhash;
       CallSendTransaction
         {| instructions :=
              [transferIx
                 (transferAccounts escrowNft escrowAccountAddress nft keypair)
                 {| transferIntoEscrowArgs := {| amount := 1; index := 1 |} |}];
            recentBlockhash := Some (blockhash latest);
            feePayer := Some (publicKey keypair) |}
         [keypair]
         (Some {| skipPreflight := Some true;
                  preflightCommitment := None;
                  maxRetries := None |})]
  end.
Proof.
  rewrite transferIn_run.
  destruct (rpcGetLatestBlockhash c (net p)) as [[latest|e] n1]; cbv zeta.
  - match goal with
    | |- context [rpcSendTransaction c ?tx ?ks ?o n1] =>
        destruct (rpcSendTransaction c tx ks o n1) as [[sig|e] n2]
    end; apply calls_made_app.
  - apply calls_made_app.
Qed.

End Runs.

(** Splits on the answer of the blockhash fetch after a [_calls] rewrite and
    reads the calls off the goal and the hypotheses. *)
Ltac by_calls c p :=
  destruct (rpcGetLatestBlockhash c (net p)) as [[? | ?] ?];
  cbn [sent_transactions flat_map app In] in *.

(** ** Claims about [transferIn] *)

(** C1.  Whatever the connection, the NFT handles and the keypair, a
    transaction [transferIn] submits carries one instruction, built with the
    transfer arguments [amount = 1] and [index = 1]; the helper has no
    parameter through which another amount could arrive. *)
Theorem transferIn_fixed_transfer_args
        {Net} transferIx isOnCurve pda (c : Connection Net)
        escrowNft escrowAccountAddress nft keypair (p : Proc Net) tx :
  In tx (sent_transactions
           (calls_made p (snd (transferIn transferIx isOnCurve pda c escrowNft
                                          escrowAccountAddress nft keypair p)))) ->
  exists accounts,
    instructions tx =
    [transferIx accounts {| transferIntoEscrowArgs := {| amount := 1; index := 1 |} |}].
Proof.
  rewrite transferIn_calls. by_calls c p; intros H.
  - destruct H as [<- | []]. eexists. reflexivity.
  - destruct H.
Qed.

Lemma transferIn_fixed_transfer_args_witness :
  let tx := hd Transaction_new
               (sent_transactions (rpcLog (snd (Demo.runTransfer Demo.connection)))) in
  In tx (sent_transactions
           (calls_made Demo.start (snd (Demo.runTransfer Demo.connection)))) /\
  exists accounts,
    instructions tx =
    [Demo.createTransferIntoEscrowInstruction accounts
       {| transferIntoEscrowArgs := {| amount := 1; index := 1 |} |}].
Proof.
  intros tx.
  assert (H : In tx (sent_transactions
                       (calls_made Demo.start (snd (Demo.runTransfer Demo.connection)))))
    by (vm_compute; left; reflexivity).
  split; [exact H |].
  exact (transferIn_fixed_transfer_args
           Demo.createTransferIntoEscrowInstruction Demo.isOnCurve
           Demo.associatedTokenPda Demo.connection Demo.escrowNft
           Demo.escrowAddress Demo.attribute Demo.wallet Demo.start tx H).
Defined.

(** C4.  In every transaction [transferIn] submits, the [attributeDst]
    account handed to the builder is the associated token address derived
    from the deposited token's mint and the escrow account address (the owner
    being allowed off the curve). *)
Theorem transferIn_destination_is_associated_token_address
        {Net} transferIx isOnCurve pda (c : Connection Net)
        escrowNft escrowAccountAddress nft keypair (p : Proc Net) tx :
  In tx (sent_transactions
           (calls_made p (snd (transferIn transferIx isOnCurve pda c escrowNft
                                          escrowAccountAddress nft keypair p)))) ->
  exists accounts args,
    instructions tx = [transferIx accounts args] /\
    getAssociatedTokenAddress isOnCurve pda
      (mint_address (mint_of nft)) escrowAccountAddress true
    = Ok (attributeDst accounts).
Proof.
  rewrite transferIn_calls. by_calls c p; intros H; [| contradiction].
  destruct H as [<- | []].
  do 2 eexists. split; reflexivity.
Qed.

Lemma transferIn_destination_is_associated_token_address_witness :
  let tx := hd Transaction_new
               (sent_transactions (rpcLog (snd (Demo.runTransfer Demo.rejecting)))) in
  In tx (sent_transactions
           (calls_made Demo.start (snd (Demo.runTransfer Demo.rejecting)))) /\
  exists accounts args,
    instructions tx = [Demo.createTransferIntoEscrowInstruction accounts args] /\
    getAssociatedTokenAddress Demo.isOnCurve Demo.associatedTokenPda
      (mint_address (mint_of Demo.attribute)) Demo.escrowAddress true
    = Ok (attributeDst accounts).
Proof.
  intros tx.
  assert (H : In tx (sent_transactions
                       (calls_made Demo.start (snd (Demo.runTransfer Demo.rejecting)))))
    by (vm_compute; left; reflexivity).
  split; [exact H |].
  exact (transferIn_destination_is_associated_token_address
           Demo.createTransferIntoEscrowInstruction Demo.isOnCurve
           Demo.associatedTokenPda Demo.rejecting Demo.escrowNft
           Demo.escrowAddress Demo.attribute Demo.wallet Demo.start tx H).
Defined.

(** C6.  Every submission [transferIn] makes passes the option
    [skipPreflight: true], and the [constraintModel] account handed to the
    builder is the key the literal in the source decodes to, whatever the
    inputs. *)
Theorem transferIn_skips_preflight_with_fixed_constraint_model
        {Net} transferIx isOnCurve pda (c : Connection Net)
        escrowNft escrowAccountAddress nft keypair (p : Proc Net)
        tx signers options :
  In (CallSendTransaction tx signers options)
     (calls_made p (snd (transferIn transferIx isOnCurve pda c escrowNft
                                    escrowAccountAddress nft keypair p))) ->
  (exists o, options = Some o /\ skipPreflight o = Some true) /\
  exists accounts args,
    instructions tx = [transferIx accounts args] /\
    PublicKey_new "CjWwgEJUBdb2iYjZsDng5qkYRC8f3rQeqr4k1j9jExr5"
    = Ok (constraintModel accounts).
Proof.
  rewrite transferIn_calls. by_calls c p; intros H.
  - destruct H as [H | [H | []]]; [discriminate H |].
    injection H as <- <- <-. split.
    + eexists. split; reflexivity.
    + do 2 eexists. split; [reflexivity |]. apply constraintModel_literal.
  - destruct H as [H | []]. discriminate H.
Qed.

Lemma transferIn_skips_preflight_with_fixed_constraint_model_witness :
  exists tx signers options,
    In (CallSendTransaction tx signers options)
       (calls_made Demo.start (snd (Demo.runTransfer Demo.connection))) /\
    (exists o, options = Some o /\ skipPreflight o = Some true) /\
    exists accounts args,
      instructions tx = [Demo.createTransferIntoEscrowInstruction accounts args] /\
      PublicKey_new "CjWwgEJUBdb2iYjZsDng5qkYRC8f3rQeqr4k1j9jExr5"
      = Ok (constraintModel accounts).
Proof.
  assert (H : exists tx signers options,
             In (CallSendTransaction tx signers options)
                (calls_made Demo.start (snd (Demo.runTransfer Demo.connection))))
    by (do 3 eexists; vm_compute; right; left; reflexivity).
  destruct H as (tx & signers & options & H).
  exists tx, signers, options. split; [exact H |].
  exact (transferIn_skips_preflight_with_fixed_constraint_model
           Demo.createTransferIntoEscrowInstruction Demo.isOnCurve
           Demo.associatedTokenPda Demo.connection Demo.escrowNft
           Demo.escrowAddress Demo.attribute Demo.wallet Demo.start
           tx signers options H).
Defined.

(** ** Claims about [createTOE] *)

(** A value [createTOE] returns is the one [findToePda] gave. *)
Lemma createTOE_value
      {Net} findToePda createIx (c : Connection Net) nft keypair (p : Proc Net) v :
  fst (createTOE findToePda createIx c nft keypair p) = Ok v ->
  v = findToePda (mint_address (nft_mint nft)).
Proof.
  rewrite createTOE_run.
  destruct (rpcGetLatestBlockhash c (net p)) as [[latest | e] n1]; cbv zeta.
  - match goal with
    | |- context [rpcSendTransaction c ?tx ?ks ?o n1] =>
        destruct (rpcSendTransaction c tx ks o n1) as [[sig | e] n2]
    end; cbn [fst]; intros H; [injection H as <-; reflexivity | discriminate H].
  - cbn [fst]. intros H. discriminate H.
Qed.

(** C2.  When [createTOE] returns, it returns what [findToePda] computed from
    the mint's public key (the derived address with its bump seed): neither
    the connection nor the cluster, and hence nothing that later becomes of
    the submitted transaction, enters the value.  It does return whenever the
    blockhash fetch and the submission both return. *)
Theorem createTOE_returns_derived_address
        {Net} findToePda createIx (c : Connection Net) nft keypair (p : Proc Net) :
  let r := createTOE findToePda createIx c nft keypair p in
  (forall v, fst r = Ok v -> v = findToePda (mint_address (nft_mint nft))) /\
  (forall latest n1,
      rpcGetLatestBlockhash c (net p) = (Ok latest, n1) ->
      (forall tx, exists signature n2,
            rpcSendTransaction c tx [keypair] None n1 = (Ok signature, n2)) ->
      fst r = Ok (findToePda (mint_address (nft_mint nft)))).
Proof.
  cbv zeta. split.
  - intros v. apply createTOE_value.
  - intros latest n1 Hfetch Hsend. rewrite createTOE_run, Hfetch. cbv zeta.
    match goal with
    | |- context [rpcSendTransaction c ?tx ?ks ?o n1] =>
        destruct (Hsend tx) as (sig & n2 & ->)
    end.
    reflexivity.
Qed.

Lemma createTOE_returns_derived_address_witness :
  fst (Demo.runCreate Demo.connection) = Ok (mkPublicKey 301, 254) /\
  (mkPublicKey 301, 254) = Demo.findToePda (mint_address (nft_mint Demo.escrowNft)) /\
  fst (Demo.runCreate Demo.connection)
  = Ok (Demo.findToePda (mint_address (nft_mint Demo.escrowNft))).
Proof.
  pose proof (createTOE_returns_derived_address
                Demo.findToePda Demo.createCreateEscrowAccountInstruction
                Demo.connection Demo.escrowNft Demo.wallet Demo.start) as [Hret Htotal].
  assert (H : fst (Demo.runCreate Demo.connection) = Ok (mkPublicKey 301, 254))
    by (vm_compute; reflexivity).
  split; [exact H |]. split.
  - exact (Hret _ H).
  - apply (Htotal Demo.latest O); [reflexivity |].
    intros tx. do 2 eexists. reflexivity.
Defined.

(** C3.  The escrow address [createTOE] derives depends on the mint's public
    key alone: two invocations on handles with the same mint, whatever their
    connections, keypairs, other addresses and process states, return the same
    value and name the same escrow account in what they submit. *)
Theorem createTOE_derived_address_deterministic
        {Net} findToePda createIx
        (c1 c2 : Connection Net) nft1 nft2 keypair1 keypair2 (p1 p2 : Proc Net) :
  mint_address (nft_mint nft1) = mint_address (nft_mint nft2) ->
  let r1 := createTOE findToePda createIx c1 nft1 keypair1 p1 in
  let r2 := createTOE findToePda createIx c2 nft2 keypair2 p2 in
  (forall v1 v2, fst r1 = Ok v1 -> fst r2 = Ok v2 -> v1 = v2) /\
  (forall tx1 tx2,
      In tx1 (sent_transactions (calls_made p1 (snd r1))) ->
      In tx2 (sent_transactions (calls_made p2 (snd r2))) ->
      exists a1 a2,
        instructions tx1 = [createIx a1] /\
        instructions tx2 = [createIx a2] /\
        cea_escrow a1 = cea_escrow a2).
Proof.
  intros Hmint r1 r2. split.
  - intros v1 v2 H1 H2.
    apply createTOE_value in H1. apply createTOE_value in H2. congruence.
  - intros tx1 tx2. subst r1 r2. rewrite !createTOE_calls.
    destruct (rpcGetLatestBlockhash c1 (net p1)) as [[l1 | e1] m1];
      destruct (rpcGetLatestBlockhash c2 (net p2)) as [[l2 | e2] m2];
      cbn [sent_transactions flat_map app In]; try tauto.
    intros [<- | []] [<- | []].
    do 2 eexists. repeat split. cbn [cea_escrow]. now rewrite Hmint.
Qed.

Lemma createTOE_derived_address_deterministic_witness :
  let r1 := createTOE Demo.findToePda Demo.createCreateEscrowAccountInstruction
                      Demo.connection Demo.escrowNft Demo.wallet Demo.start in
  let r2 := createTOE Demo.findToePda Demo.createCreateEscrowAccountInstruction
                      Demo.rejecting Demo.escrowNftAgain Demo.otherWallet
                      {| net := 4%nat; rpcLog := [CallGetLatestBlockhash]; console := [] |} in
  mint_address (nft_mint Demo.escrowNft) = mint_address (nft_mint Demo.escrowNftAgain) /\
  (forall v1 v2, fst r1 = Ok v1 -> fst r2 = Ok v2 -> v1 = v2) /\
  (forall tx1 tx2,
      In tx1 (sent_transactions (calls_made Demo.start (snd r1))) ->
      In tx2 (sent_transactions
                (calls_made {| net := 4%nat; rpcLog := [CallGetLatestBlockhash];
                               console := [] |} (snd r2))) ->
      exists a1 a2,
        instructions tx1 = [Demo.createCreateEscrowAccountInstruction a1] /\
        instructions tx2 = [Demo.createCreateEscrowAccountInstruction a2] /\
        cea_escrow a1 = cea_escrow a2).
Proof.
  intros r1 r2.
  assert (H : mint_address (nft_mint Demo.escrowNft)
              = mint_address (nft_mint Demo.escrowNftAgain)) by reflexivity.
  split; [exact H |].
  exact (createTOE_derived_address_deterministic
           Demo.findToePda Demo.createCreateEscrowAccountInstruction
           Demo.connection Demo.rejecting Demo.escrowNft Demo.escrowNftAgain
           Demo.wallet Demo.otherWallet Demo.start
           {| net := 4%nat; rpcLog := [CallGetLatestBlockhash]; console := [] |} H).
Defined.

(** C10.  Every transaction [createTOE] submits carries one instruction,
    built from an accounts object whose [escrowConstraintModel] is
    [undefined]. *)
Theorem createTOE_no_constraint_model
        {Net} findToePda createIx (c : Connection Net) nft keypair (p : Proc Net) tx :
  In tx (sent_transactions
           (calls_made p (snd (createTOE findToePda createIx c nft keypair p)))) ->
  exists accounts,
    instructions tx = [createIx accounts] /\
    cea_escrowConstraintModel accounts = None.
Proof.
  rewrite createTOE_calls. by_calls c p; intros H; [| contradiction].
  destruct H as [<- | []].
  eexists. split; reflexivity.
Qed.

Lemma createTOE_no_constraint_model_witness :
  let tx := hd Transaction_new
               (sent_transactions (rpcLog (snd (Demo.runCreate Demo.connection)))) in
  In tx (sent_transactions
           (calls_made Demo.start (snd (Demo.runCreate Demo.connection)))) /\
  exists accounts,
    instructions tx = [Demo.createCreateEscrowAccountInstruction accounts] /\
    cea_escrowConstraintModel accounts = None.
Proof.
  intros tx.
  assert (H : In tx (sent_transactions
                       (calls_made Demo.start (snd (Demo.runCreate Demo.connection)))))
    by (vm_compute; left; reflexivity).
  split; [exact H |].
  exact (createTOE_no_constraint_model
           Demo.findToePda Demo.createCreateEscrowAccountInstruction
           Demo.connection Demo.escrowNft Demo.wallet Demo.start tx H).
Defined.

(** ** Failure of the network calls *)

(** C8.  Each helper fetches the blockhash once and, if that returned,
    submits once.  An exception thrown by either call is the helper's
    outcome, unchanged; when neither throws the helper returns. *)
Theorem helpers_propagate_network_failures
        {Net} findToePda createIx transferIx isOnCurve pda (c : Connection Net)
        escrowNft escrowAccountAddress nftOrSft nft keypair (p : Proc Net) :
  let created := createTOE findToePda createIx c nft keypair p in
  let transferred :=
    transferIn transferIx isOnCurve pda c escrowNft escrowAccountAddress
               nftOrSft keypair p in
  match rpcGetLatestBlockhash c (net p) with
  | (Throw e, _) =>
      fst created = Throw e /\
      calls_made p (snd created) = [CallGetLatestBlockhash] /\
      fst transferred = Throw e /\
      calls_made p (snd transferred) = [CallGetLatestBlockhash]
  | (Ok _, n1) =>
      (exists tx,
          calls_made p (snd created)
          = [CallGetLatestBlockhash; CallSendTransaction tx [keypair] None] /\
          match rpcSendTransaction c tx [keypair] None n1 with
          | (Throw e, _) => fst created = Throw e
          | (Ok _, _) => exists v, fst created = Ok v
          end) /\
      (exists tx options,
          calls_made p (snd transferred)
          = [CallGetLatestBlockhash; CallSendTransaction tx [keypair] options] /\
          match rpcSendTransaction c tx [keypair] options n1 with
          | (Throw e, _) => fst transferred = Throw e
          | (Ok _, _) => fst transferred = Ok tt
          end)
  end.
Proof.
  cbv zeta. rewrite createTOE_calls, transferIn_calls, createTOE_run, transferIn_run.
  destruct (rpcGetLatestBlockhash c (net p)) as [[latest | e] n1]; cbv zeta.
  - split.
    + eexists. split; [reflexivity |].
      match goal with
      | |- context [rpcSendTransaction c ?tx ?ks ?o n1] =>
          destruct (rpcSendTransaction c tx ks o n1) as [[sig | e] n2]
      end; cbn [fst]; eauto.
    + do 2 eexists. split; [reflexivity |].
      match goal with
      | |- context [rpcSendTransaction c ?tx ?ks ?o n1] =>
          destruct (rpcSendTransaction c tx ks o n1) as [[sig | e] n2]
      end; reflexivity.
  - repeat split.
Qed.

Example createTOE_unreachable_endpoint :
  fst (Demo.runCreate Demo.unreachable) = Throw (mkError "FetchError" "ECONNREFUSED") /\
  rpcLog (snd (Demo.runCreate Demo.unreachable)) = [CallGetLatestBlockhash].
Proof. split; reflexivity. Qed.

Example transferIn_rejected_submission :
  fst (Demo.runTransfer Demo.rejecting)
  = Throw (mkError "SendTransactionError" "failed to send transaction") /\
  List.length (rpcLog (snd (Demo.runTransfer Demo.rejecting))) = 2%nat.
Proof. split; vm_compute; reflexivity. Qed.

(** ** The generated builder *)

(** C9 (as amended).  For every accounts object and program id, and for every
    [args] object that carries no [instructionDiscriminator] property of its
    own and whose argument struct the codec serializes, the builder answers
    an instruction whose data starts with the discriminator byte 5 and whose
    keys are the seven accounts in the order constraintModel (writable),
    payer (writable, signer), updateAuthority (signer), collectionMint,
    collectionMintMetadata, systemProgram, sysvarInstructions, the system
    program being the System Program id when the caller leaves it out. *)
Theorem createAddCollectionConstraint_instruction_layout
        (Args Fixed : Type) (toFixedFromValue : Args -> Result Fixed)
        (write : Fixed -> Args -> Result (list byte))
        (accounts : AddCollectionConstraintToEscrowConstraintModel.InstructionAccounts)
        (args : AddCollectionConstraintToEscrowConstraintModel.InstructionArgs Args)
        (programId : option PublicKey) (fixed : Fixed) (bytes : list byte) :
  AddCollectionConstraintToEscrowConstraintModel.own_instructionDiscriminator Args args = None ->
  toFixedFromValue (AddCollectionConstraintToEscrowConstraintModel.addCollectionConstraintToEscrowConstraintModelArgs Args args)
  = Ok fixed ->
  write fixed (AddCollectionConstraintToEscrowConstraintModel.addCollectionConstraintToEscrowConstraintModelArgs Args args)
  = Ok bytes ->
  exists ix,
    AddCollectionConstraintToEscrowConstraintModel.createAddCollectionConstraintToEscrowConstraintModelInstruction
      Args Fixed toFixedFromValue write accounts args programId = Ok ix /\
    (exists rest, data ix = x05 :: rest) /\
    keys ix =
    [ {| pubkey := AddCollectionConstraintToEscrowConstraintModel.constraintModel accounts;
         isWritable := true; isSigner := false |};
      {| pubkey := AddCollectionConstraintToEscrowConstraintModel.payer accounts;
         isWritable := true; isSigner := true |};
      {| pubkey := AddCollectionConstraintToEscrowConstraintModel.updateAuthority accounts;
         isWritable := false; isSigner := true |};
      {| pubkey := AddCollectionConstraintToEscrowConstraintModel.collectionMint accounts;
         isWritable := false; isSigner := false |};
      {| pubkey :=
           AddCollectionConstraintToEscrowConstraintModel.collectionMintMetadata accounts;
         isWritable := false; isSigner := false |};
      {| pubkey :=
           match AddCollectionConstraintToEscrowConstraintModel.systemProgram accounts with
           | Some k => k
           | None => SystemProgram_programId
           end;
         isWritable := false; isSigner := false |};
      {| pubkey :=
           AddCollectionConstraintToEscrowConstraintModel.sysvarInstructions accounts;
         isWritable := false; isSigner := false |} ].
Proof.
  intros Hown Hfixed Hwrite.
  unfold AddCollectionConstraintToEscrowConstraintModel.createAddCollectionConstraintToEscrowConstraintModelInstruction,
         AddCollectionConstraintToEscrowConstraintModel.AddCollectionConstraintToEscrowConstraintModelStruct_serialize.
  cbn [AddCollectionConstraintToEscrowConstraintModel.sv_instructionDiscriminator
         AddCollectionConstraintToEscrowConstraintModel.sv_addCollectionConstraintToEscrowConstraintModelArgs].
  rewrite Hown, Hfixed.
  destruct programId_literal as [k Hk].
  destruct programId as [id |]; [| rewrite Hk]; cbn; rewrite Hwrite; cbn;
    (eexists; split; [reflexivity |]; split; [eexists; reflexivity | reflexivity]).
Qed.

Lemma createAddCollectionConstraint_instruction_layout_witness :
  let accounts := BuilderDemo.omitted in
  let args := AddCollectionConstraintToEscrowConstraintModel.mkInstructionArgs (list byte) [x2a] None in
  AddCollectionConstraintToEscrowConstraintModel.own_instructionDiscriminator _ args = None /\
  BuilderDemo.toFixedFromValue [x2a] = Ok tt /\
  BuilderDemo.write tt [x2a] = Ok [x2a] /\
  exists ix,
    BuilderDemo.build accounts args None = Ok ix /\
    (exists rest, data ix = x05 :: rest) /\
    keys ix =
    [ {| pubkey := AddCollectionConstraintToEscrowConstraintModel.constraintModel accounts;
         isWritable := true; isSigner := false |};
      {| pubkey := AddCollectionConstraintToEscrowConstraintModel.payer accounts;
         isWritable := true; isSigner := true |};
      {| pubkey := AddCollectionConstraintToEscrowConstraintModel.updateAuthority accounts;
         isWritable := false; isSigner := true |};
      {| pubkey := AddCollectionConstraintToEscrowConstraintModel.collectionMint accounts;
         isWritable := false; isSigner := false |};
      {| pubkey :=
           AddCollectionConstraintToEscrowConstraintModel.collectionMintMetadata accounts;
         isWritable := false; isSigner := false |};
      {| pubkey :=
           match AddCollectionConstraintToEscrowConstraintModel.systemProgram accounts with
           | Some k => k
           | None => SystemProgram_programId
           end;
         isWritable := false; isSigner := false |};
      {| pubkey :=
           AddCollectionConstraintToEscrowConstraintModel.sysvarInstructions accounts;
         isWritable := false; isSigner := false |} ].
Proof.
  intros accounts args.
  assert (Hown : AddCollectionConstraintToEscrowConstraintModel.own_instructionDiscriminator _ args = None) by reflexivity.
  assert (Hfixed : BuilderDemo.toFixedFromValue [x2a] = Ok tt) by reflexivity.
  assert (Hwrite : BuilderDemo.write tt [x2a] = Ok [x2a]) by reflexivity.
  split; [exact Hown |]. split; [exact Hfixed |]. split; [exact Hwrite |].
  exact (createAddCollectionConstraint_instruction_layout
           (list byte) unit BuilderDemo.toFixedFromValue BuilderDemo.write
           accounts args None tt [x2a] Hown Hfixed Hwrite).
Defined.

(** C9 as first stated fails.  An [args] object with its own
    [instructionDiscriminator: 9] gives data that starts with 9, the spread
    coming after the 5; and arguments the codec refuses give no instruction
    at all. *)
Lemma createAddCollectionConstraint_instruction_layout_counterexample :
  (exists ix, BuilderDemo.overridden = Ok ix /\ data ix = [x09; x2a]) /\
  ~ (exists ix, BuilderDemo.overridden = Ok ix /\ exists rest, data ix = x05 :: rest) /\
  ~ (exists ix, BuilderDemo.refused = Ok ix).
Proof.
  split; [| split].
  - eexists. split; vm_compute; reflexivity.
  - intros (ix & Hix & rest & Hdata).
    assert (H : BuilderDemo.overridden
                = Ok (BuilderDemo.instruction_of BuilderDemo.overridden))
      by (vm_compute; reflexivity).
    rewrite H in Hix. injection Hix as <-.
    vm_compute in Hdata. discriminate Hdata.
  - intros (ix & Hix). vm_compute in Hix. discriminate Hix.
Qed.

Example createAddCollectionConstraint_without_systemProgram :
  option_map
    (fun ix => (data ix, map pubkey (keys ix)))
    (match BuilderDemo.first with Ok ix => Some ix | Throw _ => None end)
  = Some ([x05; x2a],
          map mkPublicKey [1; 2; 3; 4; 5; 0; 7]).
Proof. vm_compute. reflexivity. Qed.

(** ** The CLI *)

(** C7.  Whatever the options, the [create] action leaves the process as it
    found it: no RPC call is issued, nothing is printed, the cluster is not
    touched.  Its outcome is that of constructing the client handle.  Since
    every invocation of [createTOE] or [transferIn] issues at least one RPC
    call, the action has invoked neither. *)
Theorem create_action_only_constructs_client
        {Net Metaplex} (use_metaplex : string -> string -> option string -> Result Metaplex)
        (directory : Cli.Options) (cmd : Cli.Command) (p : Proc Net) :
  let r := Cli.create_action use_metaplex directory cmd p in
  snd r = p /\
  calls_made p (snd r) = [] /\
  fst r = match use_metaplex (Cli.keypair (Cli.opts cmd)) (Cli.env (Cli.opts cmd))
                             (Cli.rpc (Cli.opts cmd)) with
          | Ok _ => Ok tt
          | Throw e => Throw e
          end /\
  (forall findToePda createIx (c : Connection Net) nft keypair (q : Proc Net),
      calls_made q (snd (createTOE findToePda createIx c nft keypair q)) <> []) /\
  (forall transferIx isOnCurve pda (c : Connection Net) escrowNft escrowAccountAddress
          nft keypair (q : Proc Net),
      calls_made q (snd (transferIn transferIx isOnCurve pda c escrowNft
                                    escrowAccountAddress nft keypair q)) <> []).
Proof.
  cbv zeta. unfold Cli.create_action, bind, liftResult, ret.
  assert (Hsnd : snd (match use_metaplex (Cli.keypair (Cli.opts cmd))
                                         (Cli.env (Cli.opts cmd))
                                         (Cli.rpc (Cli.opts cmd)) with
                      | Ok _ => (Ok tt, p)
                      | Throw e => (@Throw unit e, p)
                      end) = p)
    by (destruct (use_metaplex _ _ _); reflexivity).
  repeat split.
  - exact Hsnd.
  - rewrite Hsnd. unfold calls_made. apply skipn_all.
  - destruct (use_metaplex _ _ _); reflexivity.
  - intros. rewrite createTOE_calls. by_calls c q; discriminate.
  - intros. rewrite transferIn_calls. by_calls c q; discriminate.
Qed.

Example create_action_run :
  Cli.create_action (Net := Demo.Net) Demo.use_metaplex Demo.options
                    (Cli.mkCommand Demo.options) Demo.start
  = (Ok tt, Demo.start).
Proof. reflexivity. Qed.

Example create_action_without_keypair :
  let o := {| Cli.env := "devnet"; Cli.rpc := None;
              Cli.keypair := "--keypair not provided";
              Cli.logLevel := None; Cli.amount := None |} in
  Cli.create_action (Net := Demo.Net) Demo.use_metaplex o (Cli.mkCommand o) Demo.start
  = (Throw (mkError "Error" "ENOENT: no such file or directory"), Demo.start).
Proof. reflexivity. Qed.


(** * Further properties of the helpers *)

(** The log of a run extends the log it started from. *)
Lemma createTOE_log
      {Net} findToePda createIx (c : Connection Net) nft keypair (p : Proc Net) :
  let p' := snd (createTOE findToePda createIx c nft keypair p) in
  rpcLog p' = rpcLog p ++ calls_made p p'.
Proof.
  cbv zeta. rewrite createTOE_run.
  destruct (rpcGetLatestBlockhash c (net p)) as [[latest | e] n1]; cbv zeta.
  - match goal with
    | |- context [rpcSendTransaction c ?tx ?ks ?o n1] =>
        destruct (rpcSendTransaction c tx ks o n1) as [[sig | e] n2]
    end; cbn [snd]; rewrite calls_made_app; reflexivity.
  - cbn [snd]. rewrite calls_made_app. reflexivity.
Qed.

Lemma transferIn_log
      {Net} transferIx isOnCurve pda (c : Connection Net)
      escrowNft escrowAccountAddress nft keypair (p : Proc Net) :
  let p' := snd (transferIn transferIx isOnCurve pda c escrowNft
                            escrowAccountAddress nft keypair p) in
  rpcLog p' = rpcLog p ++ calls_made p p'.
Proof.
  cbv zeta. rewrite transferIn_run.
  destruct (rpcGetLatestBlockhash c (net p)) as [[latest | e] n1]; cbv zeta.
  - match goal with
    | |- context [rpcSendTransaction c ?tx ?ks ?o n1] =>
        destruct (rpcSendTransaction c tx ks o n1) as [[sig | e] n2]
    end; cbn [snd]; rewrite calls_made_app; reflexivity.
  - cbn [snd]. rewrite calls_made_app. reflexivity.
Qed.

(** Calls made over two consecutive stretches add up. *)
Lemma calls_made_trans {Net} (p p1 p2 : Proc Net) :
  rpcLog p1 = rpcLog p ++ calls_made p p1 ->
  rpcLog p2 = rpcLog p1 ++ calls_made p1 p2 ->
  calls_made p p2 = calls_made p p1 ++ calls_made p1 p2.
Proof.
  intros H1 H2. unfold calls_made at 1. rewrite H2, H1 at 1.
  rewrite <- app_assoc. apply skipn_length_app.
Qed.

Lemma sent_transactions_app (l l' : list RpcCall) :
  sent_transactions (l ++ l') = sent_transactions l ++ sent_transactions l'.
Proof. unfold sent_transactions. apply flat_map_app. Qed.

(** A run of [createTOE] that returns has fetched a blockhash and submitted. *)
Lemma createTOE_returned_calls
      {Net} findToePda createIx (c : Connection Net) nft keypair (p p1 : Proc Net) v :
  createTOE findToePda createIx c nft keypair p = (Ok v, p1) ->
  exists latest n1,
    rpcGetLatestBlockhash c (net p) = (Ok latest, n1) /\
    calls_made p p1 =
    [CallGetLatestBlockhash;
     CallSendTransaction
       {| instructions :=
            [createIx
               {| cea_escrow := fst (findToePda (mint_address (nft_mint nft)));
                  cea_metadata := nft_metadataAddress nft;
                  cea_mint := mint_address (nft_mint nft);
                  cea_edition := edition_address (nft_edition nft);
                  cea_payer := publicKey keypair;
                  cea_systemProgram := None;
                  cea_escrowConstraintModel := None |}];
          recentBlockhash := Some (blockhash latest);
          feePayer := Some (publicKey keypair) |}
       [keypair] None].
Proof.
  intros H.
  pose proof (createTOE_calls findToePda createIx c nft keypair p) as Hc.
  rewrite H in Hc. cbn [snd] in Hc. rewrite createTOE_run in H.
  destruct (rpcGetLatestBlockhash c (net p)) as [[latest | e] n1]; cbv zeta in H.
  - exists latest, n1. split; [reflexivity | exact Hc].
  - discriminate H.
Qed.

(** X1.  A transaction [createTOE] submits is signed by the keypair alone and
    sent without options (so preflight stays on); it has one instruction, the
    keypair's public key as fee payer, and the blockhash the fetch of this
    very invocation answered. *)
Theorem createTOE_transaction_envelope
        {Net} findToePda createIx (c : Connection Net) nft keypair (p : Proc Net)
        tx signers options :
  In (CallSendTransaction tx signers options)
     (calls_made p (snd (createTOE findToePda createIx c nft keypair p))) ->
  signers = [keypair] /\
  options = None /\
  feePayer tx = Some (publicKey keypair) /\
  List.length (instructions tx) = 1%nat /\
  exists latest n1,
    rpcGetLatestBlockhash c (net p) = (Ok latest, n1) /\
    recentBlockhash tx = Some (blockhash latest).
Proof.
  rewrite createTOE_calls.
  destruct (rpcGetLatestBlockhash c (net p)) as [[latest | e] n1]; intros H.
  - destruct H as [H | [H | []]]; [discriminate H |].
    injection H as <- <- <-.
    repeat split. exists latest, n1. split; reflexivity.
  - destruct H as [H | []]. discriminate H.
Qed.

Lemma createTOE_transaction_envelope_witness :
  exists tx signers options,
    In (CallSendTransaction tx signers options)
       (calls_made Demo.start (snd (Demo.runCreate Demo.connection))) /\
    signers = [Demo.wallet] /\
    options = None /\
    feePayer tx = Some (publicKey Demo.wallet) /\
    List.length (instructions tx) = 1%nat /\
    exists latest n1,
      rpcGetLatestBlockhash Demo.connection (net Demo.start) = (Ok latest, n1) /\
      recentBlockhash tx = Some (blockhash latest).
Proof.
  assert (H : exists tx signers options,
             In (CallSendTransaction tx signers options)
                (calls_made Demo.start (snd (Demo.runCreate Demo.connection))))
    by (do 3 eexists; vm_compute; right; left; reflexivity).
  destruct H as (tx & signers & options & H).
  exists tx, signers, options. split; [exact H |].
  exact (createTOE_transaction_envelope
           Demo.findToePda Demo.createCreateEscrowAccountInstruction
           Demo.connection Demo.escrowNft Demo.wallet Demo.start
           tx signers options H).
Defined.

(** X2.  The accounts object behind a transaction [createTOE] submits names
    the derived address as escrow, the handle's metadata, mint and edition
    addresses, the keypair's public key as payer, and leaves the system
    program to the builder's default. *)
Theorem createTOE_accounts_wiring
        {Net} findToePda createIx (c : Connection Net) nft keypair (p : Proc Net) tx :
  In tx (sent_transactions
           (calls_made p (snd (createTOE findToePda createIx c nft keypair p)))) ->
  exists accounts,
    instructions tx = [createIx accounts] /\
    cea_escrow accounts = fst (findToePda (mint_address (nft_mint nft))) /\
    cea_metadata accounts = nft_metadataAddress nft /\
    cea_mint accounts = mint_address (nft_mint nft) /\
    cea_edition accounts = edition_address (nft_edition nft) /\
    cea_payer accounts = publicKey keypair /\
    cea_systemProgram accounts = None.
Proof.
  rewrite createTOE_calls. by_calls c p; intros H; [| contradiction].
  destruct H as [<- | []].
  eexists. repeat split.
Qed.

Lemma createTOE_accounts_wiring_witness :
  let tx := hd Transaction_new
               (sent_transactions (rpcLog (snd (Demo.runCreate Demo.connection)))) in
  In tx (sent_transactions
           (calls_made Demo.start (snd (Demo.runCreate Demo.connection)))) /\
  exists accounts,
    instructions tx = [Demo.createCreateEscrowAccountInstruction accounts] /\
    cea_escrow accounts
    = fst (Demo.findToePda (mint_address (nft_mint Demo.escrowNft))) /\
    cea_metadata accounts = nft_metadataAddress Demo.escrowNft /\
    cea_mint accounts = mint_address (nft_mint Demo.escrowNft) /\
    cea_edition accounts = edition_address (nft_edition Demo.escrowNft) /\
    cea_payer accounts = publicKey Demo.wallet /\
    cea_systemProgram accounts = None.
Proof.
  intros tx.
  assert (H : In tx (sent_transactions
                       (calls_made Demo.start (snd (Demo.runCreate Demo.connection)))))
    by (vm_compute; left; reflexivity).
  split; [exact H |].
  exact (createTOE_accounts_wiring
           Demo.findToePda Demo.createCreateEscrowAccountInstruction
           Demo.connection Demo.escrowNft Demo.wallet Demo.start tx H).
Defined.

(** X3.  The accounts object behind a transaction [transferIn] submits takes
    the escrow address as the caller gave it (it is not derived again from
    the escrow NFT), the keypair's public key as payer, the deposited token's
    mint, token and metadata addresses as the attribute accounts, and the
    escrow NFT's mint and token addresses as the escrow accounts. *)
Theorem transferIn_accounts_wiring
        {Net} transferIx isOnCurve pda (c : Connection Net)
        escrowNft escrowAccountAddress nft keypair (p : Proc Net) tx :
  In tx (sent_transactions
           (calls_made p (snd (transferIn transferIx isOnCurve pda c escrowNft
                                          escrowAccountAddress nft keypair p)))) ->
  exists accounts args,
    instructions tx = [transferIx accounts args] /\
    escrow accounts = escrowAccountAddress /\
    payer accounts = publicKey keypair /\
    attributeMint accounts = mint_address (mint_of nft) /\
    attributeSrc accounts = token_address (token_of nft) /\
    attributeMetadata accounts = metadataAddress_of nft /\
    escrowMint accounts = mint_address (nft_mint escrowNft) /\
    escrowAccount accounts = token_address (nft_token escrowNft).
Proof.
  rewrite transferIn_calls. by_calls c p; intros H; [| contradiction].
  destruct H as [<- | []].
  do 2 eexists. repeat split.
Qed.

Lemma transferIn_accounts_wiring_witness :
  let tx := hd Transaction_new
               (sent_transactions (rpcLog (snd (Demo.runTransfer Demo.connection)))) in
  In tx (sent_transactions
           (calls_made Demo.start (snd (Demo.runTransfer Demo.connection)))) /\
  exists accounts args,
    instructions tx = [Demo.createTransferIntoEscrowInstruction accounts args] /\
    escrow accounts = Demo.escrowAddress /\
    payer accounts = publicKey Demo.wallet /\
    attributeMint accounts = mint_address (mint_of Demo.attribute) /\
    attributeSrc accounts = token_address (token_of Demo.attribute) /\
    attributeMetadata accounts = metadataAddress_of Demo.attribute /\
    escrowMint accounts = mint_address (nft_mint Demo.escrowNft) /\
    escrowAccount accounts = token_address (nft_token Demo.escrowNft).
Proof.
  intros tx.
  assert (H : In tx (sent_transactions
                       (calls_made Demo.start (snd (Demo.runTransfer Demo.connection)))))
    by (vm_compute; left; reflexivity).
  split; [exact H |].
  exact (transferIn_accounts_wiring
           Demo.createTransferIntoEscrowInstruction Demo.isOnCurve
           Demo.associatedTokenPda Demo.connection Demo.escrowNft
           Demo.escrowAddress Demo.attribute Demo.wallet Demo.start tx H).
Defined.

(** X4.  A transaction [transferIn] submits is signed by the keypair alone;
    it has one instruction, the keypair's public key as fee payer, and the
    blockhash the fetch of this very invocation answered. *)
Theorem transferIn_transaction_envelope
        {Net} transferIx isOnCurve pda (c : Connection Net)
        escrowNft escrowAccountAddress nft keypair (p : Proc Net)
        tx signers options :
  In (CallSendTransaction tx signers options)
     (calls_made p (snd (transferIn transferIx isOnCurve pda c escrowNft
                                    escrowAccountAddress nft keypair p))) ->
  signers = [keypair] /\
  feePayer tx = Some (publicKey keypair) /\
  List.length (instructions tx) = 1%nat /\
  exists latest n1,
    rpcGetLatestBlockhash c (net p) = (Ok latest, n1) /\
    recentBlockhash tx = Some (blockhash latest).
Proof.
  rewrite transferIn_calls.
  destruct (rpcGetLatestBlockhash c (net p)) as [[latest | e] n1]; intros H.
  - destruct H as [H | [H | []]]; [discriminate H |].
    injection H as <- <- <-.
    repeat split. exists latest, n1. split; reflexivity.
  - destruct H as [H | []]. discriminate H.
Qed.

Lemma transferIn_transaction_envelope_witness :
  exists tx signers options,
    In (CallSendTransaction tx signers options)
       (calls_made Demo.start (snd (Demo.runTransfer Demo.rejecting))) /\
    signers = [Demo.wallet] /\
    feePayer tx = Some (publicKey Demo.wallet) /\
    List.length (instructions tx) = 1%nat /\
    exists latest n1,
      rpcGetLatestBlockhash Demo.rejecting (net Demo.start) = (Ok latest, n1) /\
      recentBlockhash tx = Some (blockhash latest).
Proof.
  assert (H : exists tx signers options,
             In (CallSendTransaction tx signers options)
                (calls_made Demo.start (snd (Demo.runTransfer Demo.rejecting))))
    by (do 3 eexists; vm_compute; right; left; reflexivity).
  destruct H as (tx & signers & options & H).
  exists tx, signers, options. split; [exact H |].
  exact (transferIn_transaction_envelope
           Demo.createTransferIntoEscrowInstruction Demo.isOnCurve
           Demo.associatedTokenPda Demo.rejecting Demo.escrowNft
           Demo.escrowAddress Demo.attribute Demo.wallet Demo.start
           tx signers options H).
Defined.

(** X5.  [createTOE] prints nothing.  [transferIn] prints the line [dst:],
    then the base58 text of the destination address, and then, once per
    submission, the transaction it submits: in every outcome, also when a
    network call throws. *)
Theorem helpers_console_output
        {Net} findToePda createIx transferIx isOnCurve pda (c : Connection Net)
        escrowNft escrowAccountAddress nftOrSft nft keypair (p : Proc Net) :
  let created := snd (createTOE findToePda createIx c nft keypair p) in
  let transferred :=
    snd (transferIn transferIx isOnCurve pda c escrowNft escrowAccountAddress
                    nftOrSft keypair p) in
  console created = console p /\
  console transferred =
  console p
  ++ [LogString "dst:";
      LogString (PublicKey_toString
                   (pda (mint_address (mint_of nftOrSft)) escrowAccountAddress))]
  ++ map LogTransaction (sent_transactions (calls_made p transferred)).
Proof.
  cbv zeta. rewrite transferIn_calls, createTOE_run, transferIn_run.
  destruct (rpcGetLatestBlockhash c (net p)) as [[latest | e] n1]; cbv zeta.
  - split.
    + match goal with
      | |- context [rpcSendTransaction c ?tx ?ks ?o n1] =>
          destruct (rpcSendTransaction c tx ks o n1) as [[sig | e] n2]
      end; reflexivity.
    + match goal with
      | |- context [rpcSendTransaction c ?tx ?ks ?o n1] =>
          destruct (rpcSendTransaction c tx ks o n1) as [[sig | e] n2]
      end; cbn [snd console sent_transactions flat_map map];
        rewrite <- app_assoc; reflexivity.
  - split; [reflexivity |].
    cbn [snd console sent_transactions flat_map map app]. reflexivity.
Qed.

(** X6.  [transferIn] reads the deposited token only through its mint, token
    and metadata addresses: an NFT handle and a semi-fungible handle that
    agree on the three run identically (the NFT's edition is never read). *)
Theorem transferIn_nft_sft_agree
        {Net} transferIx isOnCurve pda (c : Connection Net)
        escrowNft escrowAccountAddress (n : NftWithToken) (s : SftWithToken)
        keypair (p : Proc Net) :
  mint_address (nft_mint n) = mint_address (sft_mint s) ->
  token_address (nft_token n) = token_address (sft_token s) ->
  nft_metadataAddress n = sft_metadataAddress s ->
  transferIn transferIx isOnCurve pda c escrowNft escrowAccountAddress (IsNft n) keypair p
  = transferIn transferIx isOnCurve pda c escrowNft escrowAccountAddress (IsSft s) keypair p.
Proof.
  intros Hmint Htoken Hmeta. rewrite !transferIn_run.
  cbn [mint_of token_of metadataAddress_of].
  rewrite Hmint, Htoken, Hmeta. reflexivity.
Qed.

Lemma transferIn_nft_sft_agree_witness :
  let n := {| nft_mint := {| mint_address := mkPublicKey 200 |};
              nft_metadataAddress := mkPublicKey 201;
              nft_edition := {| edition_address := mkPublicKey 202 |};
              nft_token := {| token_address := mkPublicKey 203 |} |} in
  let s := {| sft_mint := {| mint_address := mkPublicKey 200 |};
              sft_metadataAddress := mkPublicKey 201;
              sft_token := {| token_address := mkPublicKey 203 |} |} in
  transferIn Demo.createTransferIntoEscrowInstruction Demo.isOnCurve
             Demo.associatedTokenPda Demo.connection Demo.escrowNft
             Demo.escrowAddress (IsNft n) Demo.wallet Demo.start
  = transferIn Demo.createTransferIntoEscrowInstruction Demo.isOnCurve
               Demo.associatedTokenPda Demo.connection Demo.escrowNft
               Demo.escrowAddress (IsSft s) Demo.wallet Demo.start.
Proof.
  intros n s.
  exact (transferIn_nft_sft_agree
           Demo.createTransferIntoEscrowInstruction Demo.isOnCurve
           Demo.associatedTokenPda Demo.connection Demo.escrowNft
           Demo.escrowAddress n s Demo.wallet Demo.start
           eq_refl eq_refl eq_refl).
Defined.

(** X7.  [createTOE] keeps no record of what it has created: invoked again
    for the same NFT after it returned, it fetches a new blockhash and
    submits a second transaction with the same instruction. *)
Theorem createTOE_twice_submits_twice
        {Net} findToePda createIx (c : Connection Net) nft keypair
        (p p1 : Proc Net) v latest2 n2 :
  createTOE findToePda createIx c nft keypair p = (Ok v, p1) ->
  rpcGetLatestBlockhash c (net p1) = (Ok latest2, n2) ->
  let twice := bind (createTOE findToePda createIx c nft keypair)
                    (fun _ => createTOE findToePda createIx c nft keypair) in
  exists tx1 tx2,
    calls_made p (snd (twice p))
    = [CallGetLatestBlockhash; CallSendTransaction tx1 [keypair] None;
       CallGetLatestBlockhash; CallSendTransaction tx2 [keypair] None] /\
    instructions tx1 = instructions tx2 /\
    recentBlockhash tx2 = Some (blockhash latest2).
Proof.
  intros H Hfetch twice. subst twice. unfold bind. rewrite H.
  destruct (createTOE_returned_calls _ _ _ _ _ _ _ _ H) as (latest & n1 & _ & Hc).
  pose proof (createTOE_log findToePda createIx c nft keypair p) as Hlog.
  cbv zeta in Hlog. rewrite H in Hlog. cbn [snd] in Hlog.
  rewrite (calls_made_trans p p1 _ Hlog (createTOE_log _ _ _ _ _ p1)).
  rewrite Hc, createTOE_calls, Hfetch.
  do 2 eexists. split; [reflexivity |]. split; reflexivity.
Qed.

Lemma createTOE_twice_submits_twice_witness :
  let twice := bind (createTOE Demo.findToePda Demo.createCreateEscrowAccountInstruction
                               Demo.connection Demo.escrowNft Demo.wallet)
                    (fun _ => createTOE Demo.findToePda
                                        Demo.createCreateEscrowAccountInstruction
                                        Demo.connection Demo.escrowNft Demo.wallet) in
  exists tx1 tx2,
    calls_made Demo.start (snd (twice Demo.start))
    = [CallGetLatestBlockhash; CallSendTransaction tx1 [Demo.wallet] None;
       CallGetLatestBlockhash; CallSendTransaction tx2 [Demo.wallet] None] /\
    instructions tx1 = instructions tx2 /\
    recentBlockhash tx2 = Some (blockhash Demo.latest).
Proof.
  exact (createTOE_twice_submits_twice
           Demo.findToePda Demo.createCreateEscrowAccountInstruction
           Demo.connection Demo.escrowNft Demo.wallet Demo.start
           (snd (Demo.runCreate Demo.connection))
           (fst (Demo.findToePda (mkPublicKey 100)), 254)
           Demo.latest 1%nat eq_refl eq_refl).
Defined.

(** X8.  [createTOE] followed by [transferIn] on the address it returned:
    when the creation throws, no call of the transfer is issued and the
    exception is the outcome; when it returns, the transfer's instruction
    names as escrow the account the creation instruction names, and as escrow
    mint the mint the creation instruction names. *)
Theorem createTOE_then_transferIn
        {Net} findToePda createIx transferIx isOnCurve pda (c : Connection Net)
        escrowNft nft keypair (p : Proc Net) :
  let both :=
    bind (createTOE findToePda createIx c escrowNft keypair)
         (fun created =>
            transferIn transferIx isOnCurve pda c escrowNft (fst created) nft keypair) in
  (forall e, fst (createTOE findToePda createIx c escrowNft keypair p) = Throw e ->
             both p = (Throw e, snd (createTOE findToePda createIx c escrowNft keypair p))) /\
  (forall v p1 latest2 n2,
      createTOE findToePda createIx c escrowNft keypair p = (Ok v, p1) ->
      rpcGetLatestBlockhash c (net p1) = (Ok latest2, n2) ->
      exists tx1 tx2 created transferred args,
        sent_transactions (calls_made p (snd (both p))) = [tx1; tx2] /\
        instructions tx1 = [createIx created] /\
        instructions tx2 = [transferIx transferred args] /\
        escrow transferred = cea_escrow created /\
        escrowMint transferred = cea_mint created).
Proof.
  cbv zeta. split.
  - intros e H. unfold bind.
    destruct (createTOE findToePda createIx c escrowNft keypair p) as [[v | e'] p1];
      cbn [fst snd] in *; [discriminate H |].
    injection H as ->. reflexivity.
  - intros v p1 latest2 n2 H Hfetch. unfold bind. rewrite H.
    destruct (createTOE_returned_calls _ _ _ _ _ _ _ _ H) as (latest & n1 & _ & Hc).
    pose proof (createTOE_log findToePda createIx c escrowNft keypair p) as Hlog.
    cbv zeta in Hlog. rewrite H in Hlog. cbn [snd] in Hlog.
    rewrite (calls_made_trans p p1 _ Hlog (transferIn_log _ _ _ _ _ _ _ _ p1)).
    rewrite Hc, transferIn_calls, Hfetch.
    pose proof (createTOE_value _ _ _ _ _ _ _ (f_equal fst H)) as ->.
    do 5 eexists. split; [reflexivity |]. repeat split.
Qed.

Lemma createTOE_then_transferIn_witness :
  let both :=
    bind (createTOE Demo.findToePda Demo.createCreateEscrowAccountInstruction
                    Demo.connection Demo.escrowNft Demo.wallet)
         (fun created =>
            transferIn Demo.createTransferIntoEscrowInstruction Demo.isOnCurve
                       Demo.associatedTokenPda Demo.connection Demo.escrowNft
                       (fst created) Demo.attribute Demo.wallet) in
  let unreached :=
    bind (createTOE Demo.findToePda Demo.createCreateEscrowAccountInstruction
                    Demo.unreachable Demo.escrowNft Demo.wallet)
         (fun created =>
            transferIn Demo.createTransferIntoEscrowInstruction Demo.isOnCurve
                       Demo.associatedTokenPda Demo.unreachable Demo.escrowNft
                       (fst created) Demo.attribute Demo.wallet) in
  unreached Demo.start
  = (Throw (mkError "FetchError" "ECONNREFUSED"), snd (Demo.runCreate Demo.unreachable)) /\
  exists tx1 tx2 created transferred args,
    sent_transactions (calls_made Demo.start (snd (both Demo.start))) = [tx1; tx2] /\
    instructions tx1 = [Demo.createCreateEscrowAccountInstruction created] /\
    instructions tx2 = [Demo.createTransferIntoEscrowInstruction transferred args] /\
    escrow transferred = cea_escrow created /\
    escrowMint transferred = cea_mint created.
Proof.
  split.
  - exact (proj1 (createTOE_then_transferIn
                    Demo.findToePda Demo.createCreateEscrowAccountInstruction
                    Demo.createTransferIntoEscrowInstruction Demo.isOnCurve
                    Demo.associatedTokenPda Demo.unreachable Demo.escrowNft
                    Demo.attribute Demo.wallet Demo.start)
                 (mkError "FetchError" "ECONNREFUSED") eq_refl).
  - exact (proj2 (createTOE_then_transferIn
                    Demo.findToePda Demo.createCreateEscrowAccountInstruction
                    Demo.createTransferIntoEscrowInstruction Demo.isOnCurve
                    Demo.associatedTokenPda Demo.connection Demo.escrowNft
                    Demo.attribute Demo.wallet Demo.start)
                 (fst (Demo.findToePda (mkPublicKey 100)), 254)
                 (snd (Demo.runCreate Demo.connection))
                 Demo.latest 1%nat eq_refl eq_refl).
Defined.

(** * Further properties of the generated builder *)

Lemma defaultProgramId_literal :
  PublicKey_new "trifMWutwBxkSuatmpPVnEe7NoE3BJKgjVi8sSyoXWX" = Ok defaultProgramIdKey.
Proof. vm_compute. reflexivity. Qed.

(** The builder's run, written out: fix the codec, write the discriminator
    (the own one of [args] when it has one), write the arguments, and list
    the keys. *)
Lemma createAddCollectionConstraint_run
      (Args Fixed : Type) (toFixedFromValue : Args -> Result Fixed)
      (write : Fixed -> Args -> Result (list byte))
      (accounts : AddCollectionConstraintToEscrowConstraintModel.InstructionAccounts)
      (args : AddCollectionConstraintToEscrowConstraintModel.InstructionArgs Args)
      (pid : option PublicKey) :
  AddCollectionConstraintToEscrowConstraintModel.createAddCollectionConstraintToEscrowConstraintModelInstruction
    Args Fixed toFixedFromValue write accounts args pid
  = Result_bind
      (toFixedFromValue
         (AddCollectionConstraintToEscrowConstraintModel.addCollectionConstraintToEscrowConstraintModelArgs Args args)) (fun fixed =>
    Result_bind
      (beet_u8_write match AddCollectionConstraintToEscrowConstraintModel.own_instructionDiscriminator Args args with
                     | Some own => own
                     | None => 5
                     end) (fun d =>
    Result_bind
      (write fixed
         (AddCollectionConstraintToEscrowConstraintModel.addCollectionConstraintToEscrowConstraintModelArgs Args args)) (fun a =>
    Ok {| programId := match pid with Some id => id | None => defaultProgramIdKey end;
          keys :=
    [ {| pubkey := AddCollectionConstraintToEscrowConstraintModel.constraintModel accounts;
         isWritable := true; isSigner := false |};
      {| pubkey := AddCollectionConstraintToEscrowConstraintModel.payer accounts;
         isWritable := true; isSigner := true |};
      {| pubkey := AddCollectionConstraintToEscrowConstraintModel.updateAuthority accounts;
         isWritable := false; isSigner := true |};
      {| pubkey := AddCollectionConstraintToEscrowConstraintModel.collectionMint accounts;
         isWritable := false; isSigner := false |};
      {| pubkey :=
           AddCollectionConstraintToEscrowConstraintModel.collectionMintMetadata accounts;
         isWritable := false; isSigner := false |};
      {| pubkey :=
           match AddCollectionConstraintToEscrowConstraintModel.systemProgram accounts with
           | Some k => k
           | None => SystemProgram_programId
           end;
         isWritable := false; isSigner := false |};
      {| pubkey :=
           AddCollectionConstraintToEscrowConstraintModel.sysvarInstructions accounts;
         isWritable := false; isSigner := false |} ];
          data := d ++ a |}))).
Proof.
  unfold AddCollectionConstraintToEscrowConstraintModel.createAddCollectionConstraintToEscrowConstraintModelInstruction,
         AddCollectionConstraintToEscrowConstraintModel.AddCollectionConstraintToEscrowConstraintModelStruct_serialize.
  cbn [AddCollectionConstraintToEscrowConstraintModel.sv_instructionDiscriminator
         AddCollectionConstraintToEscrowConstraintModel.sv_addCollectionConstraintToEscrowConstraintModelArgs].
  destruct pid as [id |]; [| rewrite defaultProgramId_literal]; cbn [Result_bind];
    (destruct (toFixedFromValue _) as [fixed | e]; cbn [Result_bind]; [| reflexivity];
     destruct (beet_u8_write _) as [d | e]; cbn [Result_bind]; [| reflexivity];
     destruct (write fixed _) as [a | e]; reflexivity).
Qed.

(** The keys of an instruction the builder answered. *)
Lemma createAddCollectionConstraint_keys
      (Args Fixed : Type) (toFixedFromValue : Args -> Result Fixed)
      (write : Fixed -> Args -> Result (list byte))
      (accounts : AddCollectionConstraintToEscrowConstraintModel.InstructionAccounts)
      (args : AddCollectionConstraintToEscrowConstraintModel.InstructionArgs Args)
      (pid : option PublicKey) ix :
  AddCollectionConstraintToEscrowConstraintModel.createAddCollectionConstraintToEscrowConstraintModelInstruction
    Args Fixed toFixedFromValue write accounts args pid = Ok ix ->
  keys ix =
    [ {| pubkey := AddCollectionConstraintToEscrowConstraintModel.constraintModel accounts;
         isWritable := true; isSigner := false |};
      {| pubkey := AddCollectionConstraintToEscrowConstraintModel.payer accounts;
         isWritable := true; isSigner := true |};
      {| pubkey := AddCollectionConstraintToEscrowConstraintModel.updateAuthority accounts;
         isWritable := false; isSigner := true |};
      {| pubkey := AddCollectionConstraintToEscrowConstraintModel.collectionMint accounts;
         isWritable := false; isSigner := false |};
      {| pubkey :=
           AddCollectionConstraintToEscrowConstraintModel.collectionMintMetadata accounts;
         isWritable := false; isSigner := false |};
      {| pubkey :=
           match AddCollectionConstraintToEscrowConstraintModel.systemProgram accounts with
           | Some k => k
           | None => SystemProgram_programId
           end;
         isWritable := false; isSigner := false |};
      {| pubkey :=
           AddCollectionConstraintToEscrowConstraintModel.sysvarInstructions accounts;
         isWritable := false; isSigner := false |} ].
Proof.
  rewrite createAddCollectionConstraint_run.
  destruct (toFixedFromValue _) as [fixed | e]; cbn [Result_bind]; [| discriminate].
  destruct (beet_u8_write _) as [d | e]; cbn [Result_bind]; [| discriminate].
  destruct (write fixed _) as [a | e]; cbn [Result_bind]; [| discriminate].
  intros H. injection H as <-. reflexivity.
Qed.

(** X9.  Leaving an optional input out and giving its default by hand build
    the same instruction: the program id left out is the key of the literal
    in the source, and the system program left out is the System Program
    id. *)
Theorem createAddCollectionConstraint_defaults
        (Args Fixed : Type) (toFixedFromValue : Args -> Result Fixed)
        (write : Fixed -> Args -> Result (list byte))
        (args : AddCollectionConstraintToEscrowConstraintModel.InstructionArgs Args)
        (accounts : AddCollectionConstraintToEscrowConstraintModel.InstructionAccounts)
        (pid : option PublicKey)
        (constraintModel payer updateAuthority collectionMint collectionMintMetadata
           sysvarInstructions : PublicKey) :
  let build :=
    AddCollectionConstraintToEscrowConstraintModel.createAddCollectionConstraintToEscrowConstraintModelInstruction
      Args Fixed toFixedFromValue write in
  let withSystemProgram sp :=
    AddCollectionConstraintToEscrowConstraintModel.mkInstructionAccounts
      constraintModel payer updateAuthority collectionMint collectionMintMetadata
      sp sysvarInstructions in
  (exists k,
      PublicKey_new "trifMWutwBxkSuatmpPVnEe7NoE3BJKgjVi8sSyoXWX" = Ok k /\
      build accounts args None = build accounts args (Some k)) /\
  build (withSystemProgram None) args pid
  = build (withSystemProgram (Some SystemProgram_programId)) args pid.
Proof.
  cbv zeta. split.
  - exists defaultProgramIdKey. split; [apply defaultProgramId_literal |].
    rewrite !createAddCollectionConstraint_run. reflexivity.
  - rewrite !createAddCollectionConstraint_run. reflexivity.
Qed.

(** X10.  When the codec serializes the arguments, the instruction's data is
    one discriminator byte followed by exactly the codec's bytes, whatever
    the accounts.  The byte is the [instructionDiscriminator] the [args]
    object carries itself when it has one (and it fits a byte), and 5
    otherwise.  The instruction's program id is the caller's, or the key of
    the literal when the caller gives none. *)
Theorem createAddCollectionConstraint_data_and_program
        (Args Fixed : Type) (toFixedFromValue : Args -> Result Fixed)
        (write : Fixed -> Args -> Result (list byte))
        (accounts : AddCollectionConstraintToEscrowConstraintModel.InstructionAccounts)
        (args : AddCollectionConstraintToEscrowConstraintModel.InstructionArgs Args)
        (pid : option PublicKey) (fixed : Fixed) (bytes : list byte) (b : byte) :
  toFixedFromValue (AddCollectionConstraintToEscrowConstraintModel.addCollectionConstraintToEscrowConstraintModelArgs Args args)
  = Ok fixed ->
  write fixed (AddCollectionConstraintToEscrowConstraintModel.addCollectionConstraintToEscrowConstraintModelArgs Args args)
  = Ok bytes ->
  Byte.of_N match AddCollectionConstraintToEscrowConstraintModel.own_instructionDiscriminator Args args with
            | Some own => own
            | None => 5
            end = Some b ->
  exists ix,
    AddCollectionConstraintToEscrowConstraintModel.createAddCollectionConstraintToEscrowConstraintModelInstruction
      Args Fixed toFixedFromValue write accounts args pid = Ok ix /\
    data ix = b :: bytes /\
    List.length (data ix) = S (List.length bytes) /\
    (AddCollectionConstraintToEscrowConstraintModel.own_instructionDiscriminator Args args = None -> b = x05) /\
    match pid with
    | Some id => programId ix = id
    | None =>
        PublicKey_new "trifMWutwBxkSuatmpPVnEe7NoE3BJKgjVi8sSyoXWX" = Ok (programId ix)
    end.
Proof.
  intros Hfixed Hwrite Hbyte.
  rewrite createAddCollectionConstraint_run, Hfixed. cbn [Result_bind].
  unfold beet_u8_write. rewrite Hbyte. cbn [Result_bind].
  rewrite Hwrite. cbn [Result_bind].
  eexists. split; [reflexivity |].
  cbn [data programId List.length app]. repeat split.
  - intros Hown. rewrite Hown in Hbyte. cbn in Hbyte. congruence.
  - destruct pid; [reflexivity | apply defaultProgramId_literal].
Qed.

Lemma createAddCollectionConstraint_data_and_program_witness :
  let args := AddCollectionConstraintToEscrowConstraintModel.mkInstructionArgs (list byte) [x2a] (Some 9) in
  BuilderDemo.toFixedFromValue [x2a] = Ok tt /\
  BuilderDemo.write tt [x2a] = Ok [x2a] /\
  Byte.of_N 9 = Some x09 /\
  exists ix,
    BuilderDemo.build BuilderDemo.omitted args None = Ok ix /\
    data ix = [x09; x2a] /\
    List.length (data ix) = 2%nat /\
    (AddCollectionConstraintToEscrowConstraintModel.own_instructionDiscriminator _ args = None -> x09 = x05) /\
    PublicKey_new "trifMWutwBxkSuatmpPVnEe7NoE3BJKgjVi8sSyoXWX" = Ok (programId ix).
Proof.
  intros args.
  assert (Hfixed : BuilderDemo.toFixedFromValue [x2a] = Ok tt) by reflexivity.
  assert (Hwrite : BuilderDemo.write tt [x2a] = Ok [x2a]) by reflexivity.
  assert (Hbyte : Byte.of_N 9 = Some x09) by reflexivity.
  split; [exact Hfixed |]. split; [exact Hwrite |]. split; [exact Hbyte |].
  exact (createAddCollectionConstraint_data_and_program
           (list byte) unit BuilderDemo.toFixedFromValue BuilderDemo.write
           BuilderDemo.omitted args None tt [x2a] x09 Hfixed Hwrite Hbyte).
Defined.

(** X11.  The key list tells the accounts apart: two calls answer the same
    keys exactly when their accounts agree field by field, the system program
    being compared after its default is filled in. *)
Theorem createAddCollectionConstraint_keys_determine_accounts
        (Args Fixed : Type) (toFixedFromValue : Args -> Result Fixed)
        (write : Fixed -> Args -> Result (list byte))
        (a1 a2 : AddCollectionConstraintToEscrowConstraintModel.InstructionAccounts)
        (args1 args2 : AddCollectionConstraintToEscrowConstraintModel.InstructionArgs Args)
        (pid1 pid2 : option PublicKey) ix1 ix2 :
  let build :=
    AddCollectionConstraintToEscrowConstraintModel.createAddCollectionConstraintToEscrowConstraintModelInstruction
      Args Fixed toFixedFromValue write in
  let system a :=
    match AddCollectionConstraintToEscrowConstraintModel.systemProgram a with
    | Some k => k
    | None => SystemProgram_programId
    end in
  build a1 args1 pid1 = Ok ix1 ->
  build a2 args2 pid2 = Ok ix2 ->
  keys ix1 = keys ix2 <->
  AddCollectionConstraintToEscrowConstraintModel.constraintModel a1
  = AddCollectionConstraintToEscrowConstraintModel.constraintModel a2 /\
  AddCollectionConstraintToEscrowConstraintModel.payer a1
  = AddCollectionConstraintToEscrowConstraintModel.payer a2 /\
  AddCollectionConstraintToEscrowConstraintModel.updateAuthority a1
  = AddCollectionConstraintToEscrowConstraintModel.updateAuthority a2 /\
  AddCollectionConstraintToEscrowConstraintModel.collectionMint a1
  = AddCollectionConstraintToEscrowConstraintModel.collectionMint a2 /\
  AddCollectionConstraintToEscrowConstraintModel.collectionMintMetadata a1
  = AddCollectionConstraintToEscrowConstraintModel.collectionMintMetadata a2 /\
  system a1 = system a2 /\
  AddCollectionConstraintToEscrowConstraintModel.sysvarInstructions a1
  = AddCollectionConstraintToEscrowConstraintModel.sysvarInstructions a2.
Proof.
  intros build system. subst build. intros H1 H2.
  apply createAddCollectionConstraint_keys in H1.
  apply createAddCollectionConstraint_keys in H2.
  rewrite H1, H2. fold (system a1) (system a2). split.
  - intros H. injection H as -> -> -> -> -> -> ->. repeat split.
  - intros (-> & -> & -> & -> & -> & -> & ->). reflexivity.
Qed.

Lemma createAddCollectionConstraint_keys_determine_accounts_witness :
  BuilderDemo.first = Ok (BuilderDemo.instruction_of BuilderDemo.first) /\
  BuilderDemo.second = Ok (BuilderDemo.instruction_of BuilderDemo.second) /\
  keys (BuilderDemo.instruction_of BuilderDemo.first)
  = keys (BuilderDemo.instruction_of BuilderDemo.second).
Proof.
  assert (H1 : BuilderDemo.first = Ok (BuilderDemo.instruction_of BuilderDemo.first))
    by reflexivity.
  assert (H2 : BuilderDemo.second = Ok (BuilderDemo.instruction_of BuilderDemo.second))
    by reflexivity.
  split; [exact H1 |]. split; [exact H2 |].
  apply (createAddCollectionConstraint_keys_determine_accounts
           (list byte) unit BuilderDemo.toFixedFromValue BuilderDemo.write
           BuilderDemo.omitted BuilderDemo.explicit
           (AddCollectionConstraintToEscrowConstraintModel.mkInstructionArgs _ [x2a] None)
           (AddCollectionConstraintToEscrowConstraintModel.mkInstructionArgs _ [x07] None)
           (Some (mkPublicKey 8)) (Some (mkPublicKey 9))
           (BuilderDemo.instruction_of BuilderDemo.first)
           (BuilderDemo.instruction_of BuilderDemo.second) H1 H2).
  repeat split.
Defined.

(** * Further properties of the CLI *)

(** X12.  [setLogLevel] with the name of a level makes that level current.
    Its announcement is logged before the level changes, so it is printed
    exactly when the level in force before the call admits [info]. *)
Theorem setLogLevel_announces_at_previous_level
        (toUpperCase : string -> string) (v : string) (prev : JsValue)
        (lg : Loglevel.Logger) (l : N) :
  Loglevel.levels (toUpperCase v) = Some l ->
  setLogLevel toUpperCase (JsString v) prev lg
  = (Ok tt,
     {| Loglevel.currentLevel := l;
        Loglevel.printed :=
          Loglevel.printed lg
          ++ (if Loglevel.currentLevel lg <=? Loglevel.INFO
              then [("setting the log value to: " ++ v)%string]
              else []) |}).
Proof.
  intros Hl. unfold setLogLevel, Loglevel.setLevel, Loglevel.info. rewrite Hl.
  destruct (Loglevel.currentLevel lg <=? Loglevel.INFO); cbn.
  - reflexivity.
  - rewrite app_nil_r. reflexivity.
Qed.

Lemma setLogLevel_announces_at_previous_level_witness :
  Loglevel.levels (LogDemo.toUpperCase "debug") = Some Loglevel.DEBUG /\
  setLogLevel LogDemo.toUpperCase (JsString "debug") JsUndefined
              {| Loglevel.currentLevel := Loglevel.TRACE; Loglevel.printed := [] |}
  = (Ok tt,
     {| Loglevel.currentLevel := Loglevel.DEBUG;
        Loglevel.printed := ["setting the log value to: debug"] |}).
Proof.
  assert (H : Loglevel.levels (LogDemo.toUpperCase "debug") = Some Loglevel.DEBUG)
    by reflexivity.
  split; [exact H |].
  exact (setLogLevel_announces_at_previous_level
           LogDemo.toUpperCase "debug" JsUndefined
           {| Loglevel.currentLevel := Loglevel.TRACE; Loglevel.printed := [] |}
           Loglevel.DEBUG H).
Defined.

(** X13.  [setLogLevel] with a string that names no level throws what
    [log.setLevel] throws and leaves the level as it was; the announcement
    has been logged by then, and is printed if the level admits [info]. *)
Theorem setLogLevel_unknown_level_throws
        (toUpperCase : string -> string) (v : string) (prev : JsValue)
        (lg : Loglevel.Logger) :
  Loglevel.levels (toUpperCase v) = None ->
  exists e lg',
    setLogLevel toUpperCase (JsString v) prev lg = (Throw e, lg') /\
    Loglevel.currentLevel lg' = Loglevel.currentLevel lg /\
    Loglevel.printed lg' =
    Loglevel.printed lg
    ++ (if Loglevel.currentLevel lg <=? Loglevel.INFO
        then [("setting the log value to: " ++ v)%string]
        else []).
Proof.
  intros Hl. unfold setLogLevel, Loglevel.setLevel, Loglevel.info. rewrite Hl.
  do 2 eexists. split; [reflexivity |].
  destruct (Loglevel.currentLevel lg <=? Loglevel.INFO); cbn.
  - split; reflexivity.
  - rewrite app_nil_r. split; reflexivity.
Qed.

Lemma setLogLevel_unknown_level_throws_witness :
  Loglevel.levels (LogDemo.toUpperCase "verbose") = None /\
  exists e lg',
    setLogLevel LogDemo.toUpperCase (JsString "verbose") JsUndefined
                {| Loglevel.currentLevel := Loglevel.INFO; Loglevel.printed := [] |}
    = (Throw e, lg') /\
    Loglevel.currentLevel lg' = Loglevel.INFO /\
    Loglevel.printed lg' = ["setting the log value to: verbose"].
Proof.
  assert (H : Loglevel.levels (LogDemo.toUpperCase "verbose") = None) by reflexivity.
  split; [exact H |].
  exact (setLogLevel_unknown_level_throws
           LogDemo.toUpperCase "verbose" JsUndefined
           {| Loglevel.currentLevel := Loglevel.INFO; Loglevel.printed := [] |} H).
Defined.

(** X14.  Given [undefined] or [null], [setLogLevel] returns without touching
    the logger.  On a fresh logger, which stands at [warn], no value makes it
    print: the announcement of the first level change is never seen. *)
Theorem setLogLevel_silent_on_fresh_logger
        (toUpperCase : string -> string) (value prev : JsValue) (lg : Loglevel.Logger) :
  setLogLevel toUpperCase JsUndefined prev lg = (Ok tt, lg) /\
  setLogLevel toUpperCase JsNull prev lg = (Ok tt, lg) /\
  Loglevel.printed (snd (setLogLevel toUpperCase value prev Loglevel.initial)) = [].
Proof.
  repeat split.
  destruct value as [| | v]; try reflexivity.
  unfold setLogLevel, Loglevel.setLevel.
  destruct (Loglevel.levels (toUpperCase v)); reflexivity.
Qed.

Example setLogLevel_twice :
  let first := snd (setLogLevel LogDemo.toUpperCase (JsString "Info") JsUndefined
                                Loglevel.initial) in
  let second := snd (setLogLevel LogDemo.toUpperCase (JsString "error") JsUndefined
                                 first) in
  first = {| Loglevel.currentLevel := Loglevel.INFO; Loglevel.printed := [] |} /\
  second = {| Loglevel.currentLevel := Loglevel.ERROR;
              Loglevel.printed := ["setting the log value to: error"] |}.
Proof. split; reflexivity. Qed.

(** X15.  The [create] action reads the options [keypair], [env] and [rpc]
    only: two invocations that agree on these three have the same outcome,
    whatever [--amount], the log level and the first callback argument
    are. *)
Theorem create_action_reads_three_options
        {Net Metaplex} (use_metaplex : string -> string -> option string -> Result Metaplex)
        (directory1 directory2 : Cli.Options) (cmd1 cmd2 : Cli.Command) (p : Proc Net) :
  Cli.keypair (Cli.opts cmd1) = Cli.keypair (Cli.opts cmd2) ->
  Cli.env (Cli.opts cmd1) = Cli.env (Cli.opts cmd2) ->
  Cli.rpc (Cli.opts cmd1) = Cli.rpc (Cli.opts cmd2) ->
  Cli.create_action use_metaplex directory1 cmd1 p
  = Cli.create_action use_metaplex directory2 cmd2 p.
Proof.
  intros Hk He Hr. unfold Cli.create_action. rewrite Hk, He, Hr. reflexivity.
Qed.

Lemma create_action_reads_three_options_witness :
  let other := {| Cli.env := "devnet";
                  Cli.rpc := None;
                  Cli.keypair := "/home/user/.config/solana/id.json";
                  Cli.logLevel := Some "debug";
                  Cli.amount := Some "1000000" |} in
  Cli.create_action (Net := Demo.Net) Demo.use_metaplex Demo.options
                    (Cli.mkCommand Demo.options) Demo.start
  = Cli.create_action Demo.use_metaplex other (Cli.mkCommand other) Demo.start.
Proof.
  intros other.
  exact (create_action_reads_three_options
           Demo.use_metaplex Demo.options other
           (Cli.mkCommand Demo.options) (Cli.mkCommand other) Demo.start
           eq_refl eq_refl eq_refl).
Defined.
